(** * Conway's Game of Life: the board mechanics of [mechanics.py]

    A shallow embedding of the [Board] class of [mechanics.py] and of the
    part of [main.py]'s [Canvas] that drives it, followed by the properties
    of the board that its specification states.

    Python integers are [Z].  A Python list is a [list]; indexing follows
    Python: a negative index counts from the end, and an index outside
    [-len, len) raises [IndexError].  Exceptions are the [Raise] branch of
    [result]. *)

From Stdlib Require Import ZArith Lia List Bool.
From stdpp Require Import base list numbers.
From Stdlib Require String.

Open Scope Z_scope.

(** ** The fragment of Python the program uses *)

Module Py.

Inductive exn : Type :=
| AssertionError
| IndexError
| AttributeError.

Inductive result (A : Type) : Type :=
| Ok (a : A)
| Raise (e : exn).

Arguments Ok {A} a.
Arguments Raise {A} e.

Definition bind {A B : Type} (m : result A) (k : A -> result B) : result B :=
  match m with
  | Ok a => k a
  | Raise e => Raise e
  end.

Definition raises {A : Type} (m : result A) : Prop :=
  exists e, m = Raise e.

(** [assert cond, msg] *)
Definition py_assert (cond : bool) : result unit :=
  if cond then Ok tt else Raise AssertionError.

(** The position a Python index denotes in a list of [len] elements. *)
Definition norm_index (len : nat) (i : Z) : option nat :=
  if (0 <=? i) && (i <? Z.of_nat len) then Some (Z.to_nat i)
  else if (i <? 0) && (- Z.of_nat len <=? i) then Some (Z.to_nat (Z.of_nat len + i))
  else None.

(** [l[i]] *)
Definition getitem {A : Type} (l : list A) (i : Z) : result A :=
  match norm_index (length l) i with
  | Some n =>
      match l !! n with
      | Some x => Ok x
      | None => Raise IndexError
      end
  | None => Raise IndexError
  end.

(** [l[i] = v] *)
Definition setitem {A : Type} (l : list A) (i : Z) (v : A) : result (list A) :=
  match norm_index (length l) i with
  | Some n => Ok (<[n:=v]> l)
  | None => Raise IndexError
  end.

(** [range(n)]: empty when [n <= 0]. *)
Definition range (n : Z) : list Z := seqZ 0 n.

(** [[x] * n]: empty when [n <= 0]. *)
Definition repeat_list {A : Type} (x : A) (n : Z) : list A :=
  replicate (Z.to_nat n) x.

(** [for x in xs: body], the loop body acting on the state [S] it mutates;
    an exception leaves the loop. *)
Fixpoint for_in {S : Type} (xs : list Z) (body : Z -> S -> result S) (s : S)
  : result S :=
  match xs with
  | [] => Ok s
  | x :: xs' => bind (body x s) (for_in xs' body)
  end.

(** [x in xs] on integers *)
Definition py_in (x : Z) (xs : list Z) : bool := existsb (Z.eqb x) xs.

(** [g[i][j]] *)
Definition getitem2 {A : Type} (g : list (list A)) (i j : Z) : result A :=
  bind (getitem g i) (fun row => getitem row j).

(** [g[i][j] = v].  The row [g[i]] is fetched and mutated in place; the rows
    of every grid of the program are distinct objects (each one is built by
    its own evaluation of [[x] * width]), so the only entry of [g] that sees
    the change is the one the index denotes. *)
Definition setitem2 {A : Type} (g : list (list A)) (i j : Z) (v : A)
  : result (list (list A)) :=
  bind (getitem g i) (fun row =>
  bind (setitem row j v) (fun row' =>
  setitem g i row')).

(** The module-level generator of [random]: a source of raw draws and the
    number of draws consumed so far. *)
Record Random : Type := mkRandom { draws : nat -> nat; used : nat }.

(** [random.randint(a, b)] for [a <= b]: an integer N with a <= N <= b. *)
Definition randint (g : Random) (a b : Z) : Z * Random :=
  (a + Z.of_nat (draws g (used g)) mod (b - a + 1),
   mkRandom (draws g) (S (used g))).

End Py.

Import Py.

Notation "'let*' x ':=' c 'in' k" := (bind c (fun x => k))
  (at level 10, x name, c at level 100, k at level 200, only parsing).

(** ** [mechanics.py] *)

Module Mechanics.

(** A value of 0 in [_state] represents a dead cell, 1 an alive cell. *)
Definition Dead : Z := 0.
Definition Alive : Z := 1.

Record Board : Type := mkBoard {
  _width : Z;
  _height : Z;
  _state : list (list Z)
}.

Definition with_state (self : Board) (st : list (list Z)) : Board :=
  mkBoard (_width self) (_height self) st.

(** [Board(width, height)].  The constructor has no failing path; it is
    given a [result] so that statements about rejection can be written. *)
Definition __init__ (width height : Z) : result Board :=
  Ok (mkBoard width height
        (map (fun _ => repeat_list 0 width) (range height))).

(** The condition of the three [assert]s of the class. *)
Definition index_assertion (self : Board) (row col : Z) : bool :=
  (0 <=? row) && (row <=? _height self)
  && (0 <=? col) && (col <=? _width self).

Definition get_item (self : Board) (row col : Z) : result Z :=
  let* _ := py_assert (index_assertion self row col) in
  getitem2 (_state self) row col.

(** [self._state[row][col] = value] *)
Definition state_assign (self : Board) (row col value : Z) : result Board :=
  let* st := setitem2 (_state self) row col value in
  Ok (with_state self st).

Definition set_item (self : Board) (row col value : Z) : result Board :=
  let* _ := py_assert (index_assertion self row col) in
  state_assign self row col value.

(** The loop state is the board being mutated and the generator. *)
Definition randomize_board (self : Board) (g : Random)
  : result (Board * Random) :=
  for_in (range (_height self)) (fun i s =>
    for_in (range (_width (fst s))) (fun j s =>
      let (v, g') := randint (snd s) 0 1 in
      let* b := state_assign (fst s) i j v in
      Ok (b, g')) s) (self, g).

Definition dr : list Z := [0; 0; 1; 1; 1; -1; -1; -1].
Definition dc : list Z := [-1; 1; -1; 0; 1; -1; 0; 1].

Definition count_alive_neighbors (self : Board) (row col : Z) : result Z :=
  let* _ := py_assert (index_assertion self row col) in
  for_in (range (Z.of_nat (length dr))) (fun i count =>
    let* dri := getitem dr i in
    let* dci := getitem dc i in
    if (row + dri <? _height self) && (row + dri >=? 0)
       && (col + dci <? _width self) && (col + dci >=? 0)
    then let* v := getitem2 (_state self) (row + dri) (col + dci) in
         Ok (count + v)
    else Ok count) 0.

(** The test of the [if] of [next_state]; [and] evaluates its right operand
    only when the left one holds. *)
Definition survives (self : Board) (i j : Z) : result bool :=
  let* v := getitem2 (_state self) i j in
  if v =? 1
  then let* n := count_alive_neighbors self i j in Ok (py_in n [2; 3])
  else Ok false.

(** The test of the [elif] of [next_state]. *)
Definition is_born (self : Board) (i j : Z) : result bool :=
  let* v := getitem2 (_state self) i j in
  if v =? 0
  then let* n := count_alive_neighbors self i j in Ok (n =? 3)
  else Ok false.

Definition next_state (self : Board) : result Board :=
  let newState :=
    map (fun _ => repeat_list 0 (_width self)) (range (_height self)) in
  let* newState :=
    for_in (range (_height self)) (fun i ns =>
      for_in (range (_width self)) (fun j ns =>
        let* v := getitem2 (_state self) i j in
        setitem2 ns i j v) ns) newState in
  let* newState :=
    for_in (range (_height self)) (fun i ns =>
      for_in (range (_width self)) (fun j ns =>
        let* c1 := survives self i j in
        if c1 then setitem2 ns i j 1
        else
          let* c2 := is_born self i j in
          if c2 then setitem2 ns i j 1
          else setitem2 ns i j 0) ns) newState in
  Ok (with_state self newState).

End Mechanics.

Import Mechanics.

(** ** [main.py]: the canvas that owns the board

    Only what reaches the board is kept: the grid dimensions, the board, and
    the brush of each visual cell.  Windows, timers and mouse events are not
    modelled. *)

Module Main.

Definition CELL_SIZE : Z := 6.

Inductive Brush : Type := DEAD_COLOR | ALIVE_COLOR.

Record Cell : Type := mkCell { row : Z; col : Z; brush : Brush }.

Definition Cell__init__ (row col state : Z) : result Cell :=
  let* _ := py_assert ((state =? 0) || (state =? 1)) in
  Ok (mkCell row col (if state =? 1 then ALIVE_COLOR else DEAD_COLOR)).

Definition kill_cell (self : Cell) : Cell :=
  mkCell (row self) (col self) DEAD_COLOR.

Definition generate_cell (self : Cell) : Cell :=
  mkCell (row self) (col self) ALIVE_COLOR.

(** An entry of [gui_board] is [None] until its [Cell] is created. *)
Record Canvas : Type := mkCanvas {
  width : Z;
  height : Z;
  board : Board;
  gui_board : list (list (option Cell))
}.

(** [gui[i][j].method()]: the cell object is mutated in place. *)
Definition call_cell (gui : list (list (option Cell))) (i j : Z)
  (method : Cell -> Cell) : result (list (list (option Cell))) :=
  let* c := getitem2 gui i j in
  match c with
  | Some cell => setitem2 gui i j (Some (method cell))
  | None => Raise AttributeError
  end.

Definition Canvas__init__ (width height : Z) : result Canvas :=
  let w := width / CELL_SIZE in
  let h := height / CELL_SIZE in
  let* b := __init__ w h in
  let gui := map (fun _ => repeat_list None w) (range h) in
  let* gui :=
    for_in (range h) (fun i gui =>
      for_in (range w) (fun j gui =>
        let* c := Cell__init__ i j 0 in
        setitem2 gui i j (Some c)) gui) gui in
  Ok (mkCanvas w h b gui).

Definition reset_game (self : Canvas) : result Canvas :=
  for_in (range (height self)) (fun i self =>
    for_in (range (width self)) (fun j self =>
      let* gui := call_cell (gui_board self) i j kill_cell in
      let* b := set_item (board self) i j 0 in
      Ok (mkCanvas (width self) (height self) b gui)) self) self.

Definition randomize_game (self : Canvas) (g : Random)
  : result (Canvas * Random) :=
  let* bg := randomize_board (board self) g in
  let* self' :=
    for_in (range (height self)) (fun i self =>
      for_in (range (width self)) (fun j self =>
        let* v := get_item (board self) i j in
        let* gui :=
          call_cell (gui_board self) i j
            (if v =? 1 then generate_cell else kill_cell) in
        Ok (mkCanvas (width self) (height self) (board self) gui)) self)
      (mkCanvas (width self) (height self) (fst bg) (gui_board self)) in
  Ok (self', snd bg).

End Main.

Import Main.

(** ** [main.py], continued: the pause flag, mouse presses and the buttons
    of the window

    The canvas object also carries the flag [game_paused]; [Game] is the
    canvas with that flag.  The attribute [speed], the timer and its
    handler, which compute with floating-point numbers, and the widgets
    themselves are not modelled: of a button only the text it shows is
    kept. *)

Module Playback.

Import String.

Definition CANVAS_HEIGHT : Z := 660.
Definition CANVAS_WIDTH : Z := 800.

Record Game : Type := mkGame { scene : Canvas; game_paused : bool }.

(** [Canvas(width, height)]: the game starts paused. *)
Definition Game__init__ (width height : Z) : result Game :=
  let* c := Canvas__init__ width height in
  Ok (mkGame c true).

Definition toggle_pause (self : Game) : Game :=
  mkGame (scene self) (negb (game_paused self)).

Definition force_pause (self : Game) : Game :=
  mkGame (scene self) true.

Inductive MouseButton : Type := LeftButton | RightButton | OtherButton.

(** The handler of a mouse press, from the point where [row] and [col] have
    been computed from the position of the event.  A handler that raises
    keeps what it has mutated so far: the result is the canvas as the
    handler leaves it and the exception that ended it, if any. *)
Definition mousePressEvent (self : Canvas) (button : MouseButton)
  (row col : Z) : Canvas * option exn :=
  match button with
  | LeftButton =>
      match call_cell (gui_board self) row col generate_cell with
      | Raise e => (self, Some e)
      | Ok gui =>
          match set_item (board self) row col 1 with
          | Raise e =>
              (mkCanvas (width self) (height self) (board self) gui, Some e)
          | Ok b => (mkCanvas (width self) (height self) b gui, None)
          end
      end
  | RightButton =>
      match call_cell (gui_board self) row col kill_cell with
      | Raise e => (self, Some e)
      | Ok gui =>
          match set_item (board self) row col 0 with
          | Raise e =>
              (mkCanvas (width self) (height self) (board self) gui, Some e)
          | Ok b => (mkCanvas (width self) (height self) b gui, None)
          end
      end
  | OtherButton => (self, None)
  end.

(** The two texts of the pause button. *)
Definition Play : string := "Play"%string.
Definition Pause : string := "Pause"%string.

Record MainWindow : Type := mkMainWindow {
  canvas : Game;
  pause_play_text : string
}.

Definition MainWindow__init__ : result MainWindow :=
  let* c := Game__init__ CANVAS_HEIGHT CANVAS_WIDTH in
  Ok (mkMainWindow c Play).

Definition pause_game_button (self : MainWindow) : MainWindow :=
  mkMainWindow (toggle_pause (canvas self))
    (if String.eqb (pause_play_text self) Pause then Play else Pause).

Definition reset_game_button (self : MainWindow) : result MainWindow :=
  let* sc := reset_game (scene (canvas self)) in
  Ok (mkMainWindow (force_pause (mkGame sc (game_paused (canvas self))))
        Play).

Definition randomize_game_button (self : MainWindow) (g : Random)
  : result (MainWindow * Random) :=
  let* scg := randomize_game (scene (canvas self)) g in
  Ok (mkMainWindow
        (force_pause (mkGame (fst scg) (game_paused (canvas self)))) Play,
      snd scg).

End Playback.

Import Playback.

(** ** Views and predicates used in the statements *)

(** The cell at a position of the grid, [None] outside it (no wrapping). *)
Definition lookup2 {A : Type} (g : list (list A)) (i j : Z) : option A :=
  if (0 <=? i) && (0 <=? j)
  then match g !! Z.to_nat i with
       | Some r => r !! Z.to_nat j
       | None => None
       end
  else None.

(** [h] rows of [w] entries. *)
Definition grid_shape {A : Type} (h w : Z) (g : list (list A)) : Prop :=
  Z.of_nat (length g) = h /\
  Forall (fun r => Z.of_nat (length r) = w) g.

(** The grid has [_height] rows of [_width] cells. *)
Definition Board_shape (b : Board) : Prop :=
  grid_shape (_height b) (_width b) (_state b).

Definition binary (v : Z) : Prop := v = Dead \/ v = Alive.

(** Every cell is Dead or Alive. *)
Definition Board_binary (b : Board) : Prop :=
  Forall (Forall binary) (_state b).

(** [_height] rows of [_width] cells, each Dead or Alive. *)
Definition Board_inv (b : Board) : Prop := Board_shape b /\ Board_binary b.

Definition same_dims (b b' : Board) : Prop :=
  _width b' = _width b /\ _height b' = _height b.

(** The position [(i, j)] lies in [[0, height) x [0, width)]. *)
Definition in_grid (b : Board) (i j : Z) : Prop :=
  0 <= i < _height b /\ 0 <= j < _width b.

Definition in_gridb (b : Board) (i j : Z) : bool :=
  (0 <=? i) && (i <? _height b) && (0 <=? j) && (j <? _width b).

(** The canvas and its board agree on the dimensions, the board's grid has
    that shape, and so has [gui_board], every entry of which is a [Cell]. *)
Definition Canvas_ok (c : Canvas) : Prop :=
  width c = _width (board c) /\ height c = _height (board c) /\
  Board_shape (board c) /\
  grid_shape (height c) (width c) (gui_board c) /\
  forall i j, 0 <= i < height c -> 0 <= j < width c ->
    exists x, lookup2 (gui_board c) i j = Some (Some x).

(** *** The Moore neighborhood, worded as the specification does *)

(** The Moore-neighborhood positions of [(r, c)]: [(r + d, c + e)] for [d],
    [e] in [{-1, 0, 1}] with [(d, e) <> (0, 0)]. *)
Definition moore_positions (r c : Z) : list (Z * Z) :=
  flat_map (fun d =>
    flat_map (fun e =>
      if (d =? 0) && (e =? 0) then [] else [(r + d, c + e)])
      [-1; 0; 1])
    [-1; 0; 1].

(** The position lies within the grid and its cell is Alive. *)
Definition alive_in_grid (b : Board) (p : Z * Z) : bool :=
  in_gridb b (fst p) (snd p) &&
  match lookup2 (_state b) (fst p) (snd p) with
  | Some v => v =? Alive
  | None => false
  end.

Definition count_alive (b : Board) (ps : list (Z * Z)) : Z :=
  Z.of_nat (length (List.filter (alive_in_grid b) ps)).

(** The number of Alive cells among the Moore-neighborhood positions that
    lie within the grid. *)
Definition moore_alive_count (b : Board) (r c : Z) : Z :=
  count_alive b (moore_positions r c).

(** *** Patterns *)

Definition mem (p : Z * Z) (l : list (Z * Z)) : bool :=
  existsb (fun q => (fst p =? fst q) && (snd p =? snd q)) l.

(** The grid of [b] has exactly the positions of [alive] Alive, and every
    other cell Dead. *)
Definition shows (b : Board) (alive : list (Z * Z)) : Prop :=
  forall i j, in_grid b i j ->
    get_item b i j = Ok (if mem (i, j) alive then Alive else Dead).

Definition horizontal_triplet : list (Z * Z) := [(2, 1); (2, 2); (2, 3)].
Definition vertical_triplet : list (Z * Z) := [(1, 2); (2, 2); (3, 2)].

(** *** Auxiliary functions of the proofs *)

(** The grid after [g[i][j] = v] at a position inside it. *)
Definition grid_update {A : Type} (g : list (list A)) (i j : Z) (v : A)
  : list (list A) :=
  alter (fun r => <[Z.to_nat j := v]> r) (Z.to_nat i) g.

(** The value of a cell, 0 for a position outside the grid. *)
Definition cell (b : Board) (i j : Z) : Z :=
  default 0 (lookup2 (_state b) i j).

(** The sum that [count_alive_neighbors] accumulates, in the order of
    [dr] and [dc]. *)
Definition neighbor_sum (b : Board) (r c : Z) : Z :=
  0 + cell b (r + 0) (c + -1) + cell b (r + 0) (c + 1)
    + cell b (r + 1) (c + -1) + cell b (r + 1) (c + 0) + cell b (r + 1) (c + 1)
    + cell b (r + -1) (c + -1) + cell b (r + -1) (c + 0)
    + cell b (r + -1) (c + 1).

(** The value that the [if]/[elif]/[else] of [next_state] stores for a cell
    of value [v] with a count of [n]. *)
Definition rule (v n : Z) : Z :=
  if (v =? 1) && py_in n [2; 3] then 1
  else if (v =? 0) && (n =? 3) then 1
  else 0.

(** The value of a cell of a grid that shows [alive]. *)
Definition pattern_cell (alive : list (Z * Z)) (i j : Z) : Z :=
  if mem (i, j) alive then 1 else 0.

(** The grid [proj s] of a loop state holds [f i j] at position [(i, j)]. *)
Definition stores {S A : Type} (proj : S -> list (list A)) (f : Z -> Z -> A)
  (s : S) (i j : Z) : Prop :=
  lookup2 (proj s) i j = Some (f i j).

Ltac decide_eqbs :=
  repeat match goal with
  | |- context [Z.eqb ?a ?b] => destruct (Z.eqb_spec a b); try lia
  end.

(** *** Example inputs *)

Definition blinker5 : Board :=
  mkBoard 5 5
    [[0; 0; 0; 0; 0]; [0; 0; 0; 0; 0]; [0; 1; 1; 1; 0];
     [0; 0; 0; 0; 0]; [0; 0; 0; 0; 0]].

Definition dead3x2 : Board := mkBoard 2 3 [[0; 0]; [0; 0]; [0; 0]].

(** A board holding an integer that is neither Dead nor Alive. *)
Definition two_in_corner : Board := mkBoard 2 2 [[2; 1]; [0; 0]].

Definition canvas2x3 : Canvas :=
  mkCanvas 2 3 (mkBoard 2 3 [[1; 0]; [0; 1]; [1; 1]])
    (map (fun i => map (fun j => Some (mkCell i j ALIVE_COLOR)) (range 2))
         (range 3)).

(** *** Further views *)

(** The integer stored at a position, 0 where there is none. *)
Definition value_at (b : Board) (p : Z * Z) : Z :=
  default 0 (lookup2 (_state b) (fst p) (snd p)).

(** The sum of the integers stored at the Moore-neighborhood positions of
    [(r, c)] that lie within the grid. *)
Definition moore_value_sum (b : Board) (r c : Z) : Z :=
  fold_right Z.add 0
    (map (value_at b)
       (List.filter (fun p => in_gridb b (fst p) (snd p))
          (moore_positions r c))).

(** The two-by-two block whose top-left cell is [(r, c)]. *)
Definition block (r c : Z) : list (Z * Z) :=
  [(r, c); (r, c + 1); (r + 1, c); (r + 1, c + 1)].

(** The horizontal and the vertical triplet centred at [(r, c)]. *)
Definition row_triplet (r c : Z) : list (Z * Z) :=
  [(r, c - 1); (r, c); (r, c + 1)].
Definition column_triplet (r c : Z) : list (Z * Z) :=
  [(r - 1, c); (r, c); (r + 1, c)].

(** The brush of the visual cell at a position of the canvas. *)
Definition brush_at (c : Canvas) (i j : Z) : option Brush :=
  match lookup2 (gui_board c) i j with
  | Some (Some x) => Some (brush x)
  | _ => None
  end.

(** The visual grid shows the board: at every position of the grid the
    brush is [ALIVE_COLOR] where the board holds 1 and [DEAD_COLOR]
    elsewhere. *)
Definition mirrors (c : Canvas) : Prop :=
  forall i j, in_grid (board c) i j ->
    exists v, get_item (board c) i j = Ok v /\
      brush_at c i j = Some (if v =? 1 then ALIVE_COLOR else DEAD_COLOR).

(** The text of the pause button names the action it performs: [Play]
    while the game is paused, [Pause] while it runs. *)
Definition label_ok (w : MainWindow) : Prop :=
  (game_paused (canvas w) = true /\ pause_play_text w = Play) \/
  (game_paused (canvas w) = false /\ pause_play_text w = Pause).

(** The visual cell stored at a position, as far as it is one. *)
Definition gui_cell (gui : list (list (option Cell))) (i j : Z)
  : option Cell :=
  match lookup2 gui i j with
  | Some (Some x) => Some x
  | _ => None
  end.

(** What a press of the left or of the right button writes: the value given
    to [set_item], the method called on the visual cell and the brush that
    method sets. *)
Definition pressed_value (button : MouseButton) : Z :=
  match button with LeftButton => 1 | _ => 0 end.
Definition pressed_method (button : MouseButton) : Cell -> Cell :=
  match button with LeftButton => generate_cell | _ => kill_cell end.
Definition pressed_brush (button : MouseButton) : Brush :=
  match button with LeftButton => ALIVE_COLOR | _ => DEAD_COLOR end.

(** The board seen in a mirror: every row reversed, and the rows in
    reverse order. *)
Definition flip_columns (b : Board) : Board :=
  with_state b (map (@reverse Z) (_state b)).
Definition flip_rows (b : Board) : Board :=
  with_state b (reverse (_state b)).

(** ** Indexing lemmas *)

Lemma norm_index_inside (len : nat) (i : Z) :
  0 <= i < Z.of_nat len -> norm_index len i = Some (Z.to_nat i).
Proof.
  intros [H0 H1]. unfold norm_index.
  destruct (Z.leb_spec 0 i); [|lia].
  destruct (Z.ltb_spec i (Z.of_nat len)); [|lia]. reflexivity.
Qed.

Lemma norm_index_past_end (len : nat) (i : Z) :
  Z.of_nat len <= i -> norm_index len i = None.
Proof.
  intros H. unfold norm_index.
  destruct (Z.leb_spec 0 i); [|lia].
  destruct (Z.ltb_spec i (Z.of_nat len)); [lia|]. simpl.
  destruct (Z.ltb_spec i 0); [lia|]. reflexivity.
Qed.

Lemma getitem_inside {A : Type} (l : list A) (i : Z) (x : A) :
  0 <= i -> l !! Z.to_nat i = Some x -> getitem l i = Ok x.
Proof.
  intros H0 Hx. unfold getitem.
  rewrite norm_index_inside.
  - rewrite Hx. reflexivity.
  - apply lookup_lt_Some in Hx. lia.
Qed.

Lemma getitem_past_end {A : Type} (l : list A) (i : Z) :
  Z.of_nat (length l) <= i -> getitem l i = Raise IndexError.
Proof.
  intros H. unfold getitem. rewrite norm_index_past_end by exact H. reflexivity.
Qed.

Lemma setitem_inside {A : Type} (l : list A) (i : Z) (v : A) :
  0 <= i < Z.of_nat (length l) -> setitem l i v = Ok (<[Z.to_nat i := v]> l).
Proof.
  intros H. unfold setitem. rewrite norm_index_inside by exact H. reflexivity.
Qed.

Section Grids.
Context {A : Type}.
Implicit Types (g : list (list A)).

Lemma shape_row g (h w i : Z) :
  grid_shape h w g -> 0 <= i < h ->
  exists r, g !! Z.to_nat i = Some r /\ Z.of_nat (length r) = w.
Proof.
  intros [Hlen Hrows] Hi.
  destruct (lookup_lt_is_Some_2 g (Z.to_nat i)) as [r Hr]; [lia|].
  exists r. split; [exact Hr|].
  rewrite Forall_forall in Hrows. apply Hrows.
  apply list_elem_of_In, list_elem_of_lookup. eauto.
Qed.

Lemma lookup2_inside g (h w i j : Z) :
  grid_shape h w g -> 0 <= i < h -> 0 <= j < w ->
  exists x, lookup2 g i j = Some x.
Proof.
  intros Hg Hi Hj. destruct (shape_row g h w i Hg Hi) as (r & Hr & Hlen).
  destruct (lookup_lt_is_Some_2 r (Z.to_nat j)) as [x Hx]; [lia|].
  exists x. unfold lookup2.
  destruct (Z.leb_spec 0 i); [|lia]. destruct (Z.leb_spec 0 j); [|lia].
  simpl. rewrite Hr. exact Hx.
Qed.

Lemma lookup2_outside g (h w i j : Z) :
  grid_shape h w g -> ~ (0 <= i < h /\ 0 <= j < w) -> lookup2 g i j = None.
Proof.
  intros [Hlen Hrows] Hout. unfold lookup2.
  destruct (Z.leb_spec 0 i); [|reflexivity].
  destruct (Z.leb_spec 0 j); [|reflexivity]. simpl.
  destruct (g !! Z.to_nat i) as [r|] eqn:Hr; [|reflexivity].
  apply lookup_ge_None.
  assert (Hi : 0 <= i < h) by (apply lookup_lt_Some in Hr; lia).
  assert (Hw : Z.of_nat (length r) = w).
  { rewrite Forall_forall in Hrows. apply Hrows.
    apply list_elem_of_In, list_elem_of_lookup. eauto. }
  lia.
Qed.

Lemma lookup2_Some_inside g (h w i j : Z) (x : A) :
  grid_shape h w g -> lookup2 g i j = Some x -> 0 <= i < h /\ 0 <= j < w.
Proof.
  intros Hg Hx.
  destruct (Z_le_dec 0 i), (Z_lt_dec i h), (Z_le_dec 0 j), (Z_lt_dec j w);
    try (split; lia);
    rewrite (lookup2_outside g h w i j Hg) in Hx by lia; discriminate.
Qed.

Lemma getitem2_lookup2 g (i j : Z) (x : A) :
  lookup2 g i j = Some x -> getitem2 g i j = Ok x.
Proof.
  unfold lookup2, getitem2. intros Hx.
  destruct (Z.leb_spec 0 i); [|discriminate].
  destruct (Z.leb_spec 0 j); [|discriminate]. simpl in Hx.
  destruct (g !! Z.to_nat i) as [r|] eqn:Hr; [|discriminate].
  rewrite (getitem_inside g i r) by assumption. simpl.
  apply getitem_inside; assumption.
Qed.

Lemma setitem2_inside g (h w i j : Z) (v : A) :
  grid_shape h w g -> 0 <= i < h -> 0 <= j < w ->
  setitem2 g i j v = Ok (grid_update g i j v).
Proof.
  intros Hg Hi Hj. destruct (shape_row g h w i Hg Hi) as (r & Hr & Hlen).
  unfold setitem2. rewrite (getitem_inside g i r) by (lia || assumption).
  simpl. rewrite setitem_inside by lia. simpl.
  rewrite setitem_inside by (destruct Hg; lia).
  f_equal. unfold grid_update.
  apply list_eq. intros k.
  destruct (decide (k = Z.to_nat i)) as [->|Hne].
  - rewrite list_lookup_insert_eq by (apply lookup_lt_Some in Hr; exact Hr).
    rewrite list_lookup_alter_eq, Hr. reflexivity.
  - rewrite list_lookup_insert_ne by congruence.
    rewrite list_lookup_alter_ne by congruence. reflexivity.
Qed.

Lemma grid_update_shape g (h w i j : Z) (v : A) :
  grid_shape h w g -> grid_shape h w (grid_update g i j v).
Proof.
  intros [Hlen Hrows]. unfold grid_update. split.
  - rewrite length_alter. exact Hlen.
  - apply Forall_alter; [exact Hrows|].
    intros r _ Hr. rewrite length_insert. exact Hr.
Qed.

Lemma lookup2_update_eq g (h w i j : Z) (v : A) :
  grid_shape h w g -> 0 <= i < h -> 0 <= j < w ->
  lookup2 (grid_update g i j v) i j = Some v.
Proof.
  intros Hg Hi Hj. destruct (shape_row g h w i Hg Hi) as (r & Hr & Hlen).
  unfold lookup2, grid_update.
  destruct (Z.leb_spec 0 i); [|lia]. destruct (Z.leb_spec 0 j); [|lia].
  simpl. rewrite list_lookup_alter_eq, Hr. simpl.
  apply list_lookup_insert_eq. lia.
Qed.

Lemma lookup2_update_ne g (i j i' j' : Z) (v : A) :
  0 <= i -> 0 <= j -> i' <> i \/ j' <> j ->
  lookup2 (grid_update g i j v) i' j' = lookup2 g i' j'.
Proof.
  intros Hi0 Hj0 Hne. unfold lookup2, grid_update.
  destruct (Z.leb_spec 0 i'); [|reflexivity].
  destruct (Z.leb_spec 0 j'); [|reflexivity]. simpl.
  destruct (decide (i' = i)) as [->|Hi].
  - rewrite list_lookup_alter_eq.
    destruct (g !! Z.to_nat i) as [r|]; [|reflexivity]. simpl.
    apply list_lookup_insert_ne. lia.
  - rewrite list_lookup_alter_ne by lia. reflexivity.
Qed.

End Grids.

(** ** Loop rules *)

Section Loops.
Context {S : Type}.
Implicit Types (body : Z -> S -> result S) (Inv : Z -> S -> Prop).

Lemma for_in_seqZ body Inv (n : nat) :
  forall (m : Z) (s : S),
  Inv m s ->
  (forall k t, m <= k < m + Z.of_nat n -> Inv k t ->
     exists t', body k t = Ok t' /\ Inv (k + 1) t') ->
  exists s', for_in (seqZ m (Z.of_nat n)) body s = Ok s' /\
             Inv (m + Z.of_nat n) s'.
Proof.
  induction n as [|n IH]; intros m s Hinit Hstep.
  - exists s. simpl. rewrite Z.add_0_r. auto.
  - rewrite Nat2Z.inj_succ, seqZ_cons by lia. simpl.
    destruct (Hstep m s) as (t & Ht & Hinv); [lia|exact Hinit|].
    rewrite Ht. simpl.
    replace (Z.pred (Z.succ (Z.of_nat n))) with (Z.of_nat n) by lia.
    destruct (IH (Z.succ m) t) as (s' & Hs' & Hfin).
    + replace (Z.succ m) with (m + 1) by lia. exact Hinv.
    + intros k u Hk Hu. apply Hstep; [lia|exact Hu].
    + exists s'. split; [exact Hs'|].
      replace (m + Z.succ (Z.of_nat n)) with (Z.succ m + Z.of_nat n) by lia.
      exact Hfin.
Qed.

(** The invariant rule of [for k in range(n)]. *)
Lemma for_in_range body Inv (n : Z) (s : S) :
  0 <= n ->
  Inv 0 s ->
  (forall k t, 0 <= k < n -> Inv k t ->
     exists t', body k t = Ok t' /\ Inv (k + 1) t') ->
  exists s', for_in (range n) body s = Ok s' /\ Inv n s'.
Proof.
  intros Hn Hinit Hstep. unfold range.
  destruct (for_in_seqZ body Inv (Z.to_nat n) 0 s Hinit) as (s' & Hs' & Hfin).
  - intros k t Hk. apply Hstep. lia.
  - rewrite Z2Nat.id in Hs', Hfin by exact Hn. exists s'. auto.
Qed.

Lemma for_in_range_empty body (n : Z) (s : S) :
  n <= 0 -> for_in (range n) body s = Ok s.
Proof.
  intros Hn. unfold range, seqZ.
  replace (Z.to_nat n) with 0%nat by lia. reflexivity.
Qed.

End Loops.

(** A doubly nested loop whose body stores [f i j] at position [(i, j)] of
    the grid [proj s] of its state, keeping [P]. *)
Section Fill.
Context {S A : Type}.
Variables (h w : Z) (proj : S -> list (list A)) (P : S -> Prop).
Variables (f : Z -> Z -> A) (body : Z -> Z -> S -> result S).

Hypothesis body_fills :
  forall i j s, 0 <= i < h -> 0 <= j < w -> P s -> grid_shape h w (proj s) ->
  exists s', body i j s = Ok s' /\ P s' /\
             proj s' = grid_update (proj s) i j (f i j).

Lemma fill_row (i : Z) (s : S) :
  0 <= i < h -> P s -> grid_shape h w (proj s) ->
  (forall i' j', 0 <= i' < i -> 0 <= j' < w -> stores proj f s i' j') ->
  exists s', for_in (range w) (fun j t => body i j t) s = Ok s' /\
    P s' /\ grid_shape h w (proj s') /\
    (forall i' j', 0 <= i' < i + 1 -> 0 <= j' < w -> stores proj f s' i' j').
Proof.
  intros Hi HP Hg Hdone.
  assert (Hw : 0 <= w).
  { destruct (shape_row _ h w i Hg Hi) as (r & _ & Hr). lia. }
  destruct (for_in_range (fun j t => body i j t)
    (fun j t => P t /\ grid_shape h w (proj t) /\
       (forall i' j', 0 <= i' < i -> 0 <= j' < w -> stores proj f t i' j') /\
       (forall j', 0 <= j' < j -> stores proj f t i j')) w s Hw)
    as (s' & Hs' & HP' & Hg' & Hrows & Hrow).
  - split; [exact HP|]. split; [exact Hg|]. split; [exact Hdone|].
    intros; lia.
  - intros j t Hj (HPt & Hgt & Hrows & Hrow).
    destruct (body_fills i j t Hi Hj HPt Hgt) as (t' & Ht' & HPt' & Hproj).
    exists t'. split; [exact Ht'|]. unfold stores. rewrite Hproj.
    split; [|split; [|split]].
    + exact HPt'.
    + apply grid_update_shape; exact Hgt.
    + intros i' j' Hi' Hj'. rewrite lookup2_update_ne by lia.
      apply Hrows; assumption.
    + intros j' Hj'. destruct (Z.eq_dec j' j) as [->|Hne].
      * apply (lookup2_update_eq _ h w); assumption.
      * rewrite lookup2_update_ne by lia. apply Hrow. lia.
  - exists s'. split; [exact Hs'|]. split; [exact HP'|]. split; [exact Hg'|].
    intros i' j' Hi' Hj'. destruct (Z.eq_dec i' i) as [->|Hne].
    + apply Hrow. exact Hj'.
    + apply Hrows; [lia|exact Hj'].
Qed.

Lemma fill_grid_with (outer : Z -> S -> result S) (s : S) :
  (forall i t, 0 <= i < h -> P t ->
     outer i t = for_in (range w) (fun j u => body i j u) t) ->
  P s -> grid_shape h w (proj s) ->
  exists s',
    for_in (range h) outer s = Ok s' /\
    P s' /\ grid_shape h w (proj s') /\
    (forall i j, 0 <= i < h -> 0 <= j < w -> stores proj f s' i j).
Proof.
  intros Houter HP Hg.
  assert (Hh : 0 <= h) by (destruct Hg; lia).
  destruct (for_in_range outer
    (fun i t => P t /\ grid_shape h w (proj t) /\
       (forall i' j', 0 <= i' < i -> 0 <= j' < w -> stores proj f t i' j')) h s Hh)
    as (s' & Hs' & HP' & Hg' & Hall).
  - split; [exact HP|]. split; [exact Hg|]. intros; lia.
  - intros i t Hi (HPt & Hgt & Hrows).
    destruct (fill_row i t Hi HPt Hgt Hrows) as (t' & Ht' & H1 & H2 & H3).
    exists t'. rewrite (Houter i t Hi HPt). auto.
  - exists s'. auto.
Qed.

Lemma fill_grid (s : S) :
  P s -> grid_shape h w (proj s) ->
  exists s',
    for_in (range h) (fun i t => for_in (range w) (fun j u => body i j u) t) s
      = Ok s' /\
    P s' /\ grid_shape h w (proj s') /\
    (forall i j, 0 <= i < h -> 0 <= j < w -> stores proj f s' i j).
Proof. apply fill_grid_with. reflexivity. Qed.

End Fill.

(** ** The board seen as a function of positions *)

Lemma index_assertion_inside (b : Board) (i j : Z) :
  in_grid b i j -> index_assertion b i j = true.
Proof.
  intros [Hi Hj]. unfold index_assertion.
  repeat (apply andb_true_intro; split); apply Z.leb_le; lia.
Qed.

Lemma lookup2_cell (b : Board) (i j : Z) :
  Board_shape b -> in_grid b i j ->
  lookup2 (_state b) i j = Some (cell b i j).
Proof.
  intros Hb [Hi Hj]. unfold cell.
  destruct (lookup2_inside _ _ _ i j Hb Hi Hj) as [x Hx].
  rewrite Hx. reflexivity.
Qed.

Lemma get_item_cell (b : Board) (i j : Z) :
  Board_shape b -> in_grid b i j -> get_item b i j = Ok (cell b i j).
Proof.
  intros Hb Hin. unfold get_item.
  rewrite index_assertion_inside by exact Hin. simpl.
  apply getitem2_lookup2, lookup2_cell; assumption.
Qed.

Lemma neighbor_step (b : Board) (r c d e count : Z) :
  Board_shape b ->
  (if (r + d <? _height b) && (r + d >=? 0)
      && (c + e <? _width b) && (c + e >=? 0)
   then let* v := getitem2 (_state b) (r + d) (c + e) in Ok (count + v)
   else Ok count) = Ok (count + cell b (r + d) (c + e)).
Proof.
  intros Hb.
  destruct (Z.ltb_spec (r + d) (_height b)); simpl.
  2:{ unfold cell. rewrite (lookup2_outside _ _ _ _ _ Hb) by lia.
      simpl. f_equal. lia. }
  destruct (Z.geb_spec (r + d) 0); simpl.
  2:{ unfold cell. rewrite (lookup2_outside _ _ _ _ _ Hb) by lia.
      simpl. f_equal. lia. }
  destruct (Z.ltb_spec (c + e) (_width b)); simpl.
  2:{ unfold cell. rewrite (lookup2_outside _ _ _ _ _ Hb) by lia.
      simpl. f_equal. lia. }
  destruct (Z.geb_spec (c + e) 0); simpl.
  2:{ unfold cell. rewrite (lookup2_outside _ _ _ _ _ Hb) by lia.
      simpl. f_equal. lia. }
  rewrite (getitem2_lookup2 _ _ _ (cell b (r + d) (c + e))).
  - reflexivity.
  - apply lookup2_cell; [exact Hb|]. split; lia.
Qed.

Lemma count_alive_neighbors_sum (b : Board) (r c : Z) :
  Board_shape b -> in_grid b r c ->
  count_alive_neighbors b r c = Ok (neighbor_sum b r c).
Proof.
  intros Hb Hin. unfold count_alive_neighbors.
  rewrite index_assertion_inside by exact Hin.
  change (range (Z.of_nat (length dr))) with [0; 1; 2; 3; 4; 5; 6; 7].
  cbn [bind py_assert for_in].
  change (getitem dr 0) with (Ok 0); change (getitem dc 0) with (Ok (-1)).
  change (getitem dr 1) with (Ok 0); change (getitem dc 1) with (Ok 1).
  change (getitem dr 2) with (Ok 1); change (getitem dc 2) with (Ok (-1)).
  change (getitem dr 3) with (Ok 1); change (getitem dc 3) with (Ok 0).
  change (getitem dr 4) with (Ok 1); change (getitem dc 4) with (Ok 1).
  change (getitem dr 5) with (Ok (-1)); change (getitem dc 5) with (Ok (-1)).
  change (getitem dr 6) with (Ok (-1)); change (getitem dc 6) with (Ok 0).
  change (getitem dr 7) with (Ok (-1)); change (getitem dc 7) with (Ok 1).
  cbn [bind].
  repeat (rewrite neighbor_step by exact Hb; cbn [bind]).
  reflexivity.
Qed.

Lemma fresh_grid_shape {A : Type} (x : A) (h w : Z) :
  0 <= h -> (0 < h -> 0 <= w) ->
  grid_shape h w (map (fun _ : Z => repeat_list x w) (range h)).
Proof.
  intros Hh Hw. split.
  - rewrite length_map. unfold range. rewrite length_seqZ. lia.
  - apply Forall_forall. intros r Hr. apply in_map_iff in Hr.
    destruct Hr as (k & <- & Hk). unfold repeat_list.
    rewrite length_replicate.
    apply list_elem_of_In, elem_of_seqZ in Hk. lia.
Qed.

Lemma fresh_grid_lookup2 {A : Type} (x : A) (h w i j : Z) :
  0 <= i < h -> 0 <= j < w ->
  lookup2 (map (fun _ : Z => repeat_list x w) (range h)) i j = Some x.
Proof.
  intros Hi Hj. unfold lookup2.
  destruct (Z.leb_spec 0 i); [|lia]. destruct (Z.leb_spec 0 j); [|lia].
  simpl.
  change (map (fun _ : Z => repeat_list x w) (range h))
    with ((fun _ : Z => repeat_list x w) <$> range h).
  rewrite list_lookup_fmap. unfold range.
  rewrite (lookup_seqZ_lt 0 h (Z.to_nat i)) by lia. simpl.
  unfold repeat_list. apply lookup_replicate_2. lia.
Qed.

Lemma Board_shape_dims (b : Board) :
  Board_shape b -> 0 <= _height b /\ (0 < _height b -> 0 <= _width b).
Proof.
  intros Hb. split.
  - destruct Hb; lia.
  - intros Hh. destruct (shape_row _ _ _ 0 Hb) as (r & _ & Hr); lia.
Qed.

Lemma survives_rule (b : Board) (i j : Z) :
  Board_shape b -> in_grid b i j ->
  survives b i j =
  Ok ((cell b i j =? 1) && py_in (neighbor_sum b i j) [2; 3]).
Proof.
  intros Hb Hin. unfold survives.
  rewrite (getitem2_lookup2 _ _ _ (cell b i j)) by (apply lookup2_cell; auto).
  cbn [bind]. destruct (cell b i j =? 1); [|reflexivity].
  rewrite count_alive_neighbors_sum by assumption. reflexivity.
Qed.

Lemma is_born_rule (b : Board) (i j : Z) :
  Board_shape b -> in_grid b i j ->
  is_born b i j = Ok ((cell b i j =? 0) && (neighbor_sum b i j =? 3)).
Proof.
  intros Hb Hin. unfold is_born.
  rewrite (getitem2_lookup2 _ _ _ (cell b i j)) by (apply lookup2_cell; auto).
  cbn [bind]. destruct (cell b i j =? 0); [|reflexivity].
  rewrite count_alive_neighbors_sum by assumption. reflexivity.
Qed.

(** One generation: the new grid is a function of the old board alone. *)
Lemma next_state_cells (b : Board) :
  Board_shape b ->
  exists b', next_state b = Ok b' /\
    _width b' = _width b /\ _height b' = _height b /\ Board_shape b' /\
    forall i j, in_grid b i j ->
      lookup2 (_state b') i j =
      Some (rule (cell b i j) (neighbor_sum b i j)).
Proof.
  intros Hb. destruct (Board_shape_dims b Hb) as [Hh Hw].
  unfold next_state.
  destruct (fill_grid (_height b) (_width b) (fun g : list (list Z) => g)
              (fun _ => True) (cell b)
              (fun i j ns => let* v := getitem2 (_state b) i j in
                             setitem2 ns i j v))
    with (s := map (fun _ : Z => repeat_list 0 (_width b)) (range (_height b)))
    as (g1 & Hg1 & _ & Hshape1 & _).
  { intros i j g Hi Hj _ Hg. exists (grid_update g i j (cell b i j)).
    rewrite (getitem2_lookup2 _ _ _ (cell b i j))
      by (apply lookup2_cell; [exact Hb|split; assumption]).
    cbn [bind]. rewrite (setitem2_inside g _ _ i j _ Hg Hi Hj). auto. }
  { exact I. }
  { apply fresh_grid_shape; assumption. }
  rewrite Hg1. cbn [bind].
  destruct (fill_grid (_height b) (_width b) (fun g : list (list Z) => g)
              (fun _ => True)
              (fun i j => rule (cell b i j) (neighbor_sum b i j))
              (fun i j ns =>
                 let* c1 := survives b i j in
                 if c1 then setitem2 ns i j 1
                 else let* c2 := is_born b i j in
                      if c2 then setitem2 ns i j 1 else setitem2 ns i j 0))
    with (s := g1) as (g2 & Hg2 & _ & Hshape2 & Hcells).
  { intros i j g Hi Hj _ Hg.
    exists (grid_update g i j (rule (cell b i j) (neighbor_sum b i j))).
    rewrite survives_rule by (auto || split; assumption). cbn [bind].
    unfold rule.
    destruct ((cell b i j =? 1) && py_in (neighbor_sum b i j) [2; 3]).
    - rewrite (setitem2_inside g _ _ i j _ Hg Hi Hj). auto.
    - rewrite is_born_rule by (auto || split; assumption). cbn [bind].
      destruct ((cell b i j =? 0) && (neighbor_sum b i j =? 3));
        rewrite (setitem2_inside g _ _ i j _ Hg Hi Hj); auto. }
  { exact I. }
  { exact Hshape1. }
  rewrite Hg2. cbn [bind].
  eexists. split; [reflexivity|]. simpl.
  split; [reflexivity|]. split; [reflexivity|]. split; [exact Hshape2|].
  intros i j [Hi Hj]. apply Hcells; assumption.
Qed.

Lemma getitem_nonneg {A : Type} (l : list A) (i : Z) :
  0 <= i ->
  getitem l i =
  match l !! Z.to_nat i with Some x => Ok x | None => Raise IndexError end.
Proof.
  intros Hi. destruct (l !! Z.to_nat i) as [x|] eqn:Hx.
  - apply getitem_inside; assumption.
  - apply getitem_past_end. apply lookup_ge_None in Hx. lia.
Qed.

Lemma getitem2_nonneg {A : Type} (g : list (list A)) (i j : Z) :
  0 <= i -> 0 <= j ->
  getitem2 g i j =
  match lookup2 g i j with Some x => Ok x | None => Raise IndexError end.
Proof.
  intros Hi Hj. unfold getitem2, lookup2.
  destruct (Z.leb_spec 0 i); [|lia]. destruct (Z.leb_spec 0 j); [|lia].
  simpl. rewrite getitem_nonneg by exact Hi.
  destruct (g !! Z.to_nat i) as [r|]; simpl; [|reflexivity].
  apply getitem_nonneg; exact Hj.
Qed.

Lemma grid_ext {A : Type} (h w : Z) (g1 g2 : list (list A)) :
  grid_shape h w g1 -> grid_shape h w g2 ->
  (forall i j, 0 <= i < h -> 0 <= j < w -> lookup2 g1 i j = lookup2 g2 i j) ->
  g1 = g2.
Proof.
  intros H1 H2 Heq. apply list_eq. intros k.
  destruct (decide (Z.of_nat k < h)) as [Hk|Hk].
  - destruct (shape_row g1 h w (Z.of_nat k) H1) as (r1 & Hr1 & Hl1); [lia|].
    destruct (shape_row g2 h w (Z.of_nat k) H2) as (r2 & Hr2 & Hl2); [lia|].
    rewrite Nat2Z.id in Hr1, Hr2. rewrite Hr1, Hr2. f_equal.
    apply list_eq. intros m.
    destruct (decide (Z.of_nat m < w)) as [Hm|Hm].
    + specialize (Heq (Z.of_nat k) (Z.of_nat m)). unfold lookup2 in Heq.
      destruct (Z.leb_spec 0 (Z.of_nat k)); [|lia].
      destruct (Z.leb_spec 0 (Z.of_nat m)); [|lia].
      simpl in Heq. rewrite !Nat2Z.id, Hr1, Hr2 in Heq. apply Heq; lia.
    + rewrite !(proj2 (lookup_ge_None _ _)) by lia. reflexivity.
  - destruct H1 as [H1 _], H2 as [H2 _].
    rewrite !(proj2 (lookup_ge_None _ _)) by lia. reflexivity.
Qed.

Lemma get_item_outside (b : Board) (i j : Z) :
  Board_shape b -> ~ in_grid b i j -> raises (get_item b i j).
Proof.
  intros Hb Hout. unfold get_item, raises.
  destruct (index_assertion b i j) eqn:Ha; simpl; [|eauto].
  unfold index_assertion in Ha.
  apply andb_prop in Ha as [Ha H4]. apply andb_prop in Ha as [Ha H3].
  apply andb_prop in Ha as [H1 H2].
  apply Z.leb_le in H1, H2, H3, H4.
  rewrite getitem2_nonneg by assumption.
  rewrite (lookup2_outside _ _ _ _ _ Hb) by exact Hout. eauto.
Qed.

Lemma setitem2_outside {A : Type} (g : list (list A)) (h w i j : Z) (v : A) :
  grid_shape h w g -> 0 <= i -> 0 <= j -> ~ (i < h /\ j < w) ->
  setitem2 g i j v = Raise IndexError.
Proof.
  intros Hg Hi Hj Hout. unfold setitem2.
  destruct (Z_lt_dec i h) as [Hih|Hih].
  - destruct (shape_row g h w i Hg) as (r & Hr & Hlen); [lia|].
    rewrite (getitem_inside g i r) by assumption. simpl.
    unfold setitem. rewrite norm_index_past_end by lia. reflexivity.
  - rewrite getitem_past_end by (destruct Hg; lia). reflexivity.
Qed.

Lemma state_assign_inside (b : Board) (i j v : Z) :
  Board_shape b -> in_grid b i j ->
  state_assign b i j v = Ok (with_state b (grid_update (_state b) i j v)).
Proof.
  intros Hb [Hi Hj]. unfold state_assign.
  rewrite (setitem2_inside _ _ _ i j v Hb Hi Hj). reflexivity.
Qed.

Lemma set_item_inside (b : Board) (i j v : Z) :
  Board_shape b -> in_grid b i j ->
  set_item b i j v = Ok (with_state b (grid_update (_state b) i j v)).
Proof.
  intros Hb Hin. unfold set_item.
  rewrite index_assertion_inside by exact Hin. simpl.
  apply state_assign_inside; assumption.
Qed.

Lemma with_state_update_shape (b : Board) (i j v : Z) :
  Board_shape b ->
  Board_shape (with_state b (grid_update (_state b) i j v)).
Proof. intros Hb. apply grid_update_shape. exact Hb. Qed.

Lemma set_item_outside (b : Board) (i j v : Z) :
  Board_shape b -> ~ in_grid b i j -> raises (set_item b i j v).
Proof.
  intros Hb Hout. unfold set_item, raises.
  destruct (index_assertion b i j) eqn:Ha; simpl; [|eauto].
  unfold index_assertion in Ha.
  apply andb_prop in Ha as [Ha H4]. apply andb_prop in Ha as [Ha H3].
  apply andb_prop in Ha as [H1 H2].
  apply Z.leb_le in H1, H2, H3, H4.
  unfold state_assign.
  rewrite (setitem2_outside _ _ _ i j v Hb) by (unfold in_grid in Hout; lia).
  simpl. eauto.
Qed.

Lemma get_item_lookup2 (b : Board) (i j : Z) :
  get_item b i j =
  if index_assertion b i j
  then match lookup2 (_state b) i j with
       | Some x => Ok x
       | None => Raise IndexError
       end
  else Raise AssertionError.
Proof.
  unfold get_item. destruct (index_assertion b i j) eqn:Ha; [|reflexivity].
  simpl. unfold index_assertion in Ha.
  apply andb_prop in Ha as [Ha H4]. apply andb_prop in Ha as [Ha H3].
  apply andb_prop in Ha as [H1 H2].
  apply Z.leb_le in H1, H3. apply getitem2_nonneg; assumption.
Qed.

(** ** The claims *)

(** C8. On a board whose grid has [_height] rows of [_width] cells, for every
    position [(r, c)] inside the grid, [set_item r c Alive] succeeds, after
    it [get_item r c] returns [Alive], and [get_item] at every other
    position answers exactly what it answered before. *)
Theorem set_item_alive_then_get (b : Board) (r c : Z) :
  Board_shape b -> in_grid b r c ->
  exists b',
    set_item b r c Alive = Ok b' /\
    get_item b' r c = Ok Alive /\
    forall i j, (i, j) <> (r, c) -> get_item b' i j = get_item b i j.
Proof.
  intros Hb Hin. exists (with_state b (grid_update (_state b) r c Alive)).
  split; [apply set_item_inside; assumption|]. split.
  - rewrite get_item_cell.
    + unfold cell. simpl. destruct Hin as [Hr Hc].
      rewrite (lookup2_update_eq _ _ _ r c Alive Hb Hr Hc). reflexivity.
    + apply with_state_update_shape; exact Hb.
    + exact Hin.
  - intros i j Hne. rewrite !get_item_lookup2.
    change (index_assertion (with_state b (grid_update (_state b) r c Alive)) i j)
      with (index_assertion b i j).
    simpl. destruct Hin as [Hr Hc].
    rewrite lookup2_update_ne; [reflexivity|lia|lia|].
    destruct (Z.eq_dec i r) as [->|Hi]; [|left; exact Hi].
    right. intros ->. apply Hne. reflexivity.
Qed.

Lemma blinker5_shape : Board_shape blinker5.
Proof. split; [reflexivity|]. repeat constructor. Qed.

Lemma set_item_alive_then_get_witness :
  exists b',
    set_item blinker5 0 4 Alive = Ok b' /\
    get_item b' 0 4 = Ok Alive /\
    forall i j, (i, j) <> (0, 4) -> get_item b' i j = get_item blinker5 i j.
Proof.
  apply (set_item_alive_then_get blinker5 0 4).
  - exact blinker5_shape.
  - unfold in_grid. simpl. lia.
Defined.

Lemma rule_alive (v n : Z) :
  rule v n = Alive <->
  (v = Alive /\ (n = 2 \/ n = 3)) \/ (v = Dead /\ n = 3).
Proof.
  unfold rule, py_in, Alive, Dead. simpl.
  destruct (Z.eqb_spec v 1), (Z.eqb_spec v 0), (Z.eqb_spec n 2),
    (Z.eqb_spec n 3); simpl; split; intros H; try lia; try discriminate.
Qed.

Lemma rule_binary (v n : Z) : rule v n = Alive \/ rule v n = Dead.
Proof.
  unfold rule.
  destruct ((v =? 1) && py_in n [2; 3]); [left; reflexivity|].
  destruct ((v =? 0) && (n =? 3)); [left|right]; reflexivity.
Qed.

(** ** The blinker and the empty board *)

Lemma cell_of_shows (b : Board) (alive : list (Z * Z)) :
  Board_shape b -> shows b alive ->
  (forall i j, mem (i, j) alive = true -> in_grid b i j) ->
  forall i j, cell b i j = pattern_cell alive i j.
Proof.
  intros Hb Hshow Hsub i j. unfold pattern_cell.
  destruct (Z_le_dec 0 i), (Z_lt_dec i (_height b)), (Z_le_dec 0 j),
    (Z_lt_dec j (_width b));
    try (assert (Hin : in_grid b i j) by (split; lia);
         specialize (Hshow i j Hin);
         rewrite (get_item_cell b i j Hb Hin) in Hshow;
         injection Hshow as ->; reflexivity);
    (destruct (mem (i, j) alive) eqn:Hm;
     [apply Hsub in Hm; unfold in_grid in Hm; lia|];
     unfold cell; rewrite (lookup2_outside _ _ _ _ _ Hb) by lia; reflexivity).
Qed.

Lemma neighbor_sum_pattern (b : Board) (alive : list (Z * Z)) (r c : Z) :
  (forall i j, cell b i j = pattern_cell alive i j) ->
  neighbor_sum b r c =
  0 + pattern_cell alive (r + 0) (c + -1) + pattern_cell alive (r + 0) (c + 1)
    + pattern_cell alive (r + 1) (c + -1) + pattern_cell alive (r + 1) (c + 0)
    + pattern_cell alive (r + 1) (c + 1)
    + pattern_cell alive (r + -1) (c + -1) + pattern_cell alive (r + -1) (c + 0)
    + pattern_cell alive (r + -1) (c + 1).
Proof. intros H. unfold neighbor_sum. rewrite !H. reflexivity. Qed.

Lemma horizontal_to_vertical (b : Board) (i j : Z) :
  (forall i j, cell b i j = pattern_cell horizontal_triplet i j) ->
  rule (cell b i j) (neighbor_sum b i j) = pattern_cell vertical_triplet i j.
Proof.
  intros H. rewrite (neighbor_sum_pattern b horizontal_triplet) by exact H.
  rewrite H. unfold pattern_cell, mem, horizontal_triplet, vertical_triplet.
  cbn [existsb fst snd].
  decide_eqbs; reflexivity.
Qed.

Lemma vertical_to_horizontal (b : Board) (i j : Z) :
  (forall i j, cell b i j = pattern_cell vertical_triplet i j) ->
  rule (cell b i j) (neighbor_sum b i j) = pattern_cell horizontal_triplet i j.
Proof.
  intros H. rewrite (neighbor_sum_pattern b vertical_triplet) by exact H.
  rewrite H. unfold pattern_cell, mem, horizontal_triplet, vertical_triplet.
  cbn [existsb fst snd].
  decide_eqbs; reflexivity.
Qed.

Lemma shows_next_state (b : Board) (alive alive' : list (Z * Z)) :
  Board_shape b -> shows b alive ->
  (forall i j, mem (i, j) alive = true -> in_grid b i j) ->
  (forall i j, rule (cell b i j) (neighbor_sum b i j)
               = pattern_cell alive' i j) ->
  exists b', next_state b = Ok b' /\ Board_shape b' /\
    _width b' = _width b /\ _height b' = _height b /\ shows b' alive'.
Proof.
  intros Hb Hshow Hsub Hrule.
  destruct (next_state_cells b Hb) as (b' & Hnext & Hw & Hh & Hb' & Hcells).
  exists b'. split; [exact Hnext|]. split; [exact Hb'|].
  split; [exact Hw|]. split; [exact Hh|].
  intros i j Hin'.
  assert (Hin : in_grid b i j) by (unfold in_grid in *; rewrite <- Hw, <- Hh; exact Hin').
  rewrite (get_item_cell b' i j Hb' Hin'). unfold cell.
  rewrite (Hcells i j Hin), Hrule. reflexivity.
Qed.

Lemma horizontal_in_grid (b : Board) (i j : Z) :
  5 <= _width b -> 5 <= _height b ->
  mem (i, j) horizontal_triplet = true -> in_grid b i j.
Proof.
  intros Hw Hh. unfold mem, horizontal_triplet, in_grid. cbn [existsb fst snd].
  decide_eqbs; intros H; try discriminate H; lia.
Qed.

Lemma vertical_in_grid (b : Board) (i j : Z) :
  5 <= _width b -> 5 <= _height b ->
  mem (i, j) vertical_triplet = true -> in_grid b i j.
Proof.
  intros Hw Hh. unfold mem, vertical_triplet, in_grid. cbn [existsb fst snd].
  decide_eqbs; intros H; try discriminate H; lia.
Qed.

(** C6. On every board of at least 5 by 5 whose only Alive cells are the
    horizontal triplet (2,1), (2,2), (2,3), one [next_state] gives a board
    of the same dimensions, with [_height] rows of [_width] cells, on which
    exactly the vertical triplet (1,2), (2,2), (3,2) is Alive and every
    other cell Dead, and a second [next_state] gives back the board it
    started from, so exactly the horizontal triplet. *)
Theorem blinker_period_two (b : Board) :
  Board_shape b -> 5 <= _width b -> 5 <= _height b ->
  shows b horizontal_triplet ->
  exists b1 b2,
    next_state b = Ok b1 /\
    same_dims b b1 /\ Board_shape b1 /\ shows b1 vertical_triplet /\
    next_state b1 = Ok b2 /\
    same_dims b b2 /\ Board_shape b2 /\ shows b2 horizontal_triplet /\
    b2 = b.
Proof.
  intros Hb Hw Hh Hshow.
  destruct (shows_next_state b horizontal_triplet vertical_triplet Hb Hshow)
    as (b1 & Hn1 & Hb1 & Hw1 & Hh1 & Hshow1).
  { intros i j. apply horizontal_in_grid; assumption. }
  { intros i j. apply horizontal_to_vertical.
    apply cell_of_shows; [exact Hb|exact Hshow|].
    intros i' j'. apply horizontal_in_grid; assumption. }
  destruct (shows_next_state b1 vertical_triplet horizontal_triplet Hb1 Hshow1)
    as (b2 & Hn2 & Hb2 & Hw2 & Hh2 & Hshow2).
  { intros i j. apply vertical_in_grid; lia. }
  { intros i j. apply vertical_to_horizontal.
    apply cell_of_shows; [exact Hb1|exact Hshow1|].
    intros i' j'. apply vertical_in_grid; lia. }
  assert (Hd2 : same_dims b b2) by (split; congruence).
  assert (Hst : _state b2 = _state b).
  { apply (grid_ext (_height b) (_width b)).
    - unfold Board_shape in Hb2. rewrite Hw2, Hh2, Hw1, Hh1 in Hb2. exact Hb2.
    - exact Hb.
    - intros i j Hi Hj.
      assert (Hin : in_grid b i j) by (split; assumption).
      assert (Hin2 : in_grid b2 i j)
        by (unfold in_grid; rewrite Hw2, Hh2, Hw1, Hh1; exact Hin).
      rewrite (lookup2_cell b2 i j Hb2 Hin2), (lookup2_cell b i j Hb Hin).
      f_equal.
      pose proof (Hshow2 i j Hin2) as E2. pose proof (Hshow i j Hin) as E.
      rewrite (get_item_cell b2 i j Hb2 Hin2) in E2.
      rewrite (get_item_cell b i j Hb Hin) in E. congruence. }
  exists b1, b2. split; [exact Hn1|]. split; [split; assumption|].
  split; [exact Hb1|]. split; [exact Hshow1|]. split; [exact Hn2|].
  split; [exact Hd2|]. split; [exact Hb2|]. split; [exact Hshow2|].
  destruct Hd2 as [Hdw Hdh]. destruct b, b2. simpl in *. congruence.
Qed.

Lemma blinker5_shows : shows blinker5 horizontal_triplet.
Proof.
  intros i j [Hi Hj]. simpl in Hi, Hj.
  assert (Hi' : i = 0 \/ i = 1 \/ i = 2 \/ i = 3 \/ i = 4) by lia.
  assert (Hj' : j = 0 \/ j = 1 \/ j = 2 \/ j = 3 \/ j = 4) by lia.
  destruct Hi' as [-> | [-> | [-> | [-> | ->]]]];
    destruct Hj' as [-> | [-> | [-> | [-> | ->]]]]; reflexivity.
Qed.

Lemma blinker_period_two_witness :
  exists b1 b2,
    next_state blinker5 = Ok b1 /\
    same_dims blinker5 b1 /\ Board_shape b1 /\ shows b1 vertical_triplet /\
    next_state b1 = Ok b2 /\
    same_dims blinker5 b2 /\ Board_shape b2 /\ shows b2 horizontal_triplet /\
    b2 = blinker5.
Proof.
  apply (blinker_period_two blinker5).
  - exact blinker5_shape.
  - simpl. lia.
  - simpl. lia.
  - exact blinker5_shows.
Defined.

Lemma cell_all_dead (b : Board) :
  Board_shape b ->
  (forall i j, in_grid b i j -> get_item b i j = Ok Dead) ->
  forall i j, cell b i j = 0.
Proof.
  intros Hb Hdead i j.
  apply (cell_of_shows b [] Hb).
  - intros i' j' Hin. simpl. apply Hdead. exact Hin.
  - intros i' j' Hm. discriminate Hm.
Qed.

(** C10. On a board whose grid has [_height] rows of [_width] cells, all of
    them Dead, [next_state] succeeds and every cell of the resulting board
    is Dead: the grid is left as it was. *)
Theorem all_dead_is_fixed_point (b : Board) :
  Board_shape b ->
  (forall i j, in_grid b i j -> get_item b i j = Ok Dead) ->
  exists b',
    next_state b = Ok b' /\
    (forall i j, in_grid b' i j -> get_item b' i j = Ok Dead) /\
    b' = b.
Proof.
  intros Hb Hdead.
  pose proof (cell_all_dead b Hb Hdead) as Hcell.
  destruct (shows_next_state b [] [] Hb) as (b' & Hn & Hb' & Hw & Hh & Hshow).
  { intros i j Hin. simpl. apply Hdead. exact Hin. }
  { intros i j Hm. discriminate Hm. }
  { intros i j. unfold neighbor_sum. rewrite !Hcell. reflexivity. }
  exists b'. split; [exact Hn|]. split.
  - intros i j Hin. apply (Hshow i j Hin).
  - assert (Hst : _state b' = _state b).
    { apply (grid_ext (_height b) (_width b)).
      - unfold Board_shape in Hb'. rewrite Hw, Hh in Hb'. exact Hb'.
      - exact Hb.
      - intros i j Hi Hj.
        assert (Hin : in_grid b i j) by (split; assumption).
        assert (Hin' : in_grid b' i j)
          by (unfold in_grid; rewrite Hw, Hh; exact Hin).
        rewrite (lookup2_cell b' i j Hb' Hin'), (lookup2_cell b i j Hb Hin).
        f_equal. rewrite Hcell.
        pose proof (Hshow i j Hin') as E.
        rewrite (get_item_cell b' i j Hb' Hin') in E. simpl in E.
        injection E as ->. reflexivity. }
    destruct b, b'. simpl in *. congruence.
Qed.

Lemma all_dead_is_fixed_point_witness :
  exists b',
    next_state dead3x2 = Ok b' /\
    (forall i j, in_grid b' i j -> get_item b' i j = Ok Dead) /\
    b' = dead3x2.
Proof.
  apply (all_dead_is_fixed_point dead3x2).
  - split; [reflexivity|]. repeat constructor.
  - intros i j [Hi Hj]. simpl in Hi, Hj.
    assert (Hi' : i = 0 \/ i = 1 \/ i = 2) by lia.
    assert (Hj' : j = 0 \/ j = 1) by lia.
    destruct Hi' as [-> | [-> | ->]]; destruct Hj' as [-> | ->]; reflexivity.
Defined.

(** ** The neighbor count against the Moore neighborhood *)

Lemma count_alive_cons (b : Board) (p : Z * Z) (ps : list (Z * Z)) :
  count_alive b (p :: ps) =
  (if alive_in_grid b p then 1 else 0) + count_alive b ps.
Proof.
  unfold count_alive. simpl. destruct (alive_in_grid b p); simpl length; lia.
Qed.

Lemma in_gridb_spec (b : Board) (i j : Z) :
  in_gridb b i j = true <-> in_grid b i j.
Proof.
  unfold in_gridb, in_grid. rewrite !andb_true_iff.
  rewrite !Z.leb_le, !Z.ltb_lt. tauto.
Qed.

Lemma lookup2_binary (b : Board) (i j v : Z) :
  Board_binary b -> lookup2 (_state b) i j = Some v -> binary v.
Proof.
  unfold Board_binary, lookup2. intros Hbin Hv.
  destruct ((0 <=? i) && (0 <=? j)); [|discriminate].
  destruct (_state b !! Z.to_nat i) as [r|] eqn:Hr; [|discriminate].
  pose proof (Forall_lookup_1 _ _ _ _ Hbin Hr) as Hrow.
  exact (Forall_lookup_1 _ _ _ _ Hrow Hv).
Qed.

Lemma cell_indicator (b : Board) (i j : Z) :
  Board_shape b -> Board_binary b ->
  cell b i j = if alive_in_grid b (i, j) then 1 else 0.
Proof.
  intros Hb Hbin. unfold alive_in_grid, cell. simpl.
  destruct (in_gridb b i j) eqn:Hin.
  - apply in_gridb_spec in Hin. rewrite (lookup2_cell b i j Hb Hin). simpl.
    destruct (lookup2_binary b i j _ Hbin (lookup2_cell b i j Hb Hin))
      as [-> | ->]; reflexivity.
  - rewrite (lookup2_outside _ _ _ _ _ Hb); [reflexivity|].
    intros Hin'. apply in_gridb_spec in Hin'. congruence.
Qed.

(** C4. On a board whose grid has [_height] rows of [_width] cells, each
    Dead or Alive, and for a position inside the grid,
    [count_alive_neighbors] returns a number in [[0, 8]] that is the number
    of Alive cells among the Moore-neighborhood positions lying within the
    grid; positions outside the grid are not counted and nothing wraps.  At
    the corner (0,0) it is the number of Alive cells among those of (0,1),
    (1,0), (1,1) that lie within the grid, hence at most 3. *)
Theorem count_alive_neighbors_moore (b : Board) (r c : Z) :
  Board_shape b -> Board_binary b -> in_grid b r c ->
  exists n,
    count_alive_neighbors b r c = Ok n /\
    0 <= n <= 8 /\
    n = moore_alive_count b r c /\
    (r = 0 -> c = 0 ->
     n = count_alive b [(0, 1); (1, 0); (1, 1)] /\ n <= 3).
Proof.
  intros Hb Hbin Hin. exists (neighbor_sum b r c).
  split; [apply count_alive_neighbors_sum; assumption|].
  assert (Hsum : neighbor_sum b r c = moore_alive_count b r c).
  { unfold neighbor_sum, moore_alive_count, moore_positions.
    cbn [flat_map app Z.eqb andb].
    rewrite !count_alive_cons, !(cell_indicator b _ _ Hb Hbin).
    unfold count_alive. simpl List.filter. simpl length. lia. }
  split; [|split; [exact Hsum|]].
  - rewrite Hsum. unfold moore_alive_count, moore_positions.
    cbn [flat_map app Z.eqb andb]. rewrite !count_alive_cons.
    unfold count_alive. simpl List.filter. simpl length.
    repeat match goal with
    | |- context [alive_in_grid b ?p] => destruct (alive_in_grid b p)
    end; lia.
  - intros -> ->. unfold neighbor_sum.
    rewrite !(cell_indicator b _ _ Hb Hbin), !count_alive_cons.
    unfold count_alive. simpl List.filter. simpl length.
    assert (Hout : forall i j, i < 0 \/ j < 0 -> alive_in_grid b (i, j) = false).
    { intros i j Hneg. unfold alive_in_grid.
      destruct (in_gridb b (fst (i, j)) (snd (i, j))) eqn:E; [|reflexivity].
      apply in_gridb_spec in E. unfold in_grid in E. simpl in E. lia. }
    rewrite !(Hout _ (0 + -1)) by lia. rewrite !(Hout (0 + -1)) by lia.
    change (0 + 0) with 0. change (0 + 1) with 1.
    repeat match goal with
    | |- context [alive_in_grid b ?p] => destruct (alive_in_grid b p)
    end; lia.
Qed.

Lemma blinker5_binary : Board_binary blinker5.
Proof. repeat constructor; (left; reflexivity) || (right; reflexivity). Qed.

Lemma count_alive_neighbors_moore_witness :
  exists n,
    count_alive_neighbors blinker5 0 0 = Ok n /\
    0 <= n <= 8 /\
    n = moore_alive_count blinker5 0 0 /\
    (0 = 0 -> 0 = 0 ->
     n = count_alive blinker5 [(0, 1); (1, 0); (1, 1)] /\ n <= 3).
Proof.
  apply (count_alive_neighbors_moore blinker5 0 0).
  - exact blinker5_shape.
  - exact blinker5_binary.
  - unfold in_grid. simpl. lia.
Defined.

Lemma neighbor_sum_alive_count (b : Board) (r c : Z) :
  Board_shape b -> Board_binary b ->
  neighbor_sum b r c = moore_alive_count b r c.
Proof.
  intros Hb Hbin. unfold neighbor_sum, moore_alive_count, moore_positions.
  cbn [flat_map app Z.eqb andb].
  rewrite !count_alive_cons, !(cell_indicator b _ _ Hb Hbin).
  unfold count_alive. simpl List.filter. simpl length. lia.
Qed.

(** C1 as stated does not hold for every board.  [set_item] stores any
    integer and [count_alive_neighbors] adds the integers it finds: on the
    board reached from [Board(2, 2)] by [set_item(0, 0, 2)] and
    [set_item(0, 1, 1)], the cell (0,1) is Alive and none of its Moore
    neighbors is Alive, yet the count is 2 and the cell is Alive after
    [next_state]. *)
Lemma next_state_counts_stored_integers :
  (exists b0 b1, __init__ 2 2 = Ok b0 /\ set_item b0 0 0 2 = Ok b1 /\
     set_item b1 0 1 1 = Ok two_in_corner) /\
  Board_shape two_in_corner /\ in_grid two_in_corner 0 1 /\
  get_item two_in_corner 0 1 = Ok Alive /\
  moore_alive_count two_in_corner 0 1 = 0 /\
  count_alive_neighbors two_in_corner 0 1 = Ok 2 /\
  exists b', next_state two_in_corner = Ok b' /\ get_item b' 0 1 = Ok Alive.
Proof.
  split; [eexists; eexists; repeat split; reflexivity|].
  split; [split; [reflexivity|repeat constructor]|].
  split; [unfold in_grid; simpl; lia|].
  split; [reflexivity|]. split; [reflexivity|]. split; [reflexivity|].
  eexists. split; reflexivity.
Qed.

(** C1, amended.  On a board whose grid has [_height] rows of [_width]
    cells, each Dead or Alive, [next_state] succeeds and keeps the
    dimensions, and for every position inside the grid the new cell is
    Alive if and only if the old cell was Alive with a neighbor count of 2
    or 3, or was Dead with a neighbor count of 3; otherwise the new cell is
    Dead.  The neighbor count is the number of Alive cells among the
    Moore-neighborhood positions lying within the grid, and it is what
    [count_alive_neighbors] returns on the board as it was before the call,
    as the old cell is what [get_item] returns on it: no count sees a cell
    written during the same call. *)
Theorem next_state_rule_on_snapshot (b : Board) :
  Board_shape b -> Board_binary b ->
  exists b',
    next_state b = Ok b' /\
    _width b' = _width b /\ _height b' = _height b /\
    forall i j, in_grid b i j ->
      exists v n,
        get_item b i j = Ok v /\
        n = moore_alive_count b i j /\
        count_alive_neighbors b i j = Ok n /\
        (get_item b' i j = Ok Alive <->
         (v = Alive /\ (n = 2 \/ n = 3)) \/ (v = Dead /\ n = 3)) /\
        (get_item b' i j = Ok Alive \/ get_item b' i j = Ok Dead).
Proof.
  intros Hb Hbin.
  destruct (next_state_cells b Hb) as (b' & Hnext & Hw & Hh & Hb' & Hcells).
  exists b'. split; [exact Hnext|]. split; [exact Hw|]. split; [exact Hh|].
  intros i j Hin. exists (cell b i j), (neighbor_sum b i j).
  split; [apply get_item_cell; assumption|].
  split; [apply neighbor_sum_alive_count; assumption|].
  split; [apply count_alive_neighbors_sum; assumption|].
  assert (Hin' : in_grid b' i j) by (unfold in_grid; rewrite Hw, Hh; exact Hin).
  assert (Hget : get_item b' i j = Ok (rule (cell b i j) (neighbor_sum b i j))).
  { rewrite (get_item_cell b' i j Hb' Hin'). unfold cell at 1.
    rewrite (Hcells i j Hin). reflexivity. }
  rewrite Hget. split.
  - rewrite <- rule_alive. split; [intros [= H]; exact H|intros ->; reflexivity].
  - destruct (rule_binary (cell b i j) (neighbor_sum b i j)) as [-> | ->]; auto.
Qed.

Lemma next_state_rule_on_snapshot_witness :
  exists b',
    next_state blinker5 = Ok b' /\
    _width b' = _width blinker5 /\ _height b' = _height blinker5 /\
    forall i j, in_grid blinker5 i j ->
      exists v n,
        get_item blinker5 i j = Ok v /\
        n = moore_alive_count blinker5 i j /\
        count_alive_neighbors blinker5 i j = Ok n /\
        (get_item b' i j = Ok Alive <->
         (v = Alive /\ (n = 2 \/ n = 3)) \/ (v = Dead /\ n = 3)) /\
        (get_item b' i j = Ok Alive \/ get_item b' i j = Ok Dead).
Proof.
  apply (next_state_rule_on_snapshot blinker5).
  - exact blinker5_shape.
  - exact blinker5_binary.
Defined.

(** ** Clearing the board from the canvas *)

Lemma call_cell_inside (gui : list (list (option Cell))) (h w i j : Z)
  (method : Cell -> Cell) (x : Cell) :
  grid_shape h w gui -> 0 <= i < h -> 0 <= j < w ->
  lookup2 gui i j = Some (Some x) ->
  call_cell gui i j method = Ok (grid_update gui i j (Some (method x))).
Proof.
  intros Hg Hi Hj Hx. unfold call_cell.
  rewrite (getitem2_lookup2 _ _ _ _ Hx). cbn [bind].
  apply (setitem2_inside gui h w); assumption.
Qed.

(** A canvas made by the constructor from a pixel extent that is not
    negative satisfies [Canvas_ok]. *)
Lemma Canvas_init_ok (pw ph : Z) :
  0 <= pw -> 0 <= ph ->
  exists c, Canvas__init__ pw ph = Ok c /\ Canvas_ok c /\
    width c = pw / CELL_SIZE /\ height c = ph / CELL_SIZE.
Proof.
  intros Hpw Hph. unfold Canvas__init__.
  assert (Hw : 0 <= pw / CELL_SIZE) by (apply Z.div_pos; unfold CELL_SIZE; lia).
  assert (Hh : 0 <= ph / CELL_SIZE) by (apply Z.div_pos; unfold CELL_SIZE; lia).
  generalize dependent (pw / CELL_SIZE). intros w Hw.
  generalize dependent (ph / CELL_SIZE). intros h Hh.
  unfold __init__. cbn [bind].
  destruct (fill_grid h w (fun g : list (list (option Cell)) => g)
              (fun _ => True) (fun i j => Some (mkCell i j DEAD_COLOR))
              (fun i j gui => let* c := Cell__init__ i j 0 in
                              setitem2 gui i j (Some c)))
    with (s := map (fun _ : Z => repeat_list (@None Cell) w) (range h))
    as (gui & Hgui & _ & Hshape & Hcells).
  - intros i j g Hi Hj _ Hg. eexists.
    change (Cell__init__ i j 0) with (Ok (mkCell i j DEAD_COLOR)).
    cbn [bind]. rewrite (setitem2_inside g _ _ i j _ Hg Hi Hj). auto.
  - exact I.
  - apply fresh_grid_shape; lia.
  - rewrite Hgui. cbn [bind]. eexists. split; [reflexivity|].
    split; [|split; reflexivity].
    split; [reflexivity|]. split; [reflexivity|]. cbn [board width height gui_board].
    split; [apply fresh_grid_shape; lia|]. split; [exact Hshape|].
    intros i j Hi Hj. eexists. apply Hcells; assumption.
Qed.

Lemma reset_game_cells (c : Canvas) :
  Canvas_ok c ->
  exists c', reset_game c = Ok c' /\ Canvas_ok c' /\
    width c' = width c /\ height c' = height c /\
    forall i j, in_grid (board c) i j ->
      lookup2 (_state (board c')) i j = Some 0.
Proof.
  intros (Hw & Hh & Hb & Hgui & Hcells). unfold reset_game.
  destruct (fill_grid_with (height c) (width c) (fun s => _state (board s))
    (fun s => width s = width c /\ height s = height c /\
              _width (board s) = width c /\ _height (board s) = height c /\
              grid_shape (height c) (width c) (gui_board s) /\
              forall i j, 0 <= i < height c -> 0 <= j < width c ->
                exists x, lookup2 (gui_board s) i j = Some (Some x))
    (fun _ _ => 0)
    (fun i j s =>
       let* gui := call_cell (gui_board s) i j kill_cell in
       let* b := set_item (board s) i j 0 in
       Ok (mkCanvas (width s) (height s) b gui)))
    with (s := c)
         (outer := fun i self =>
            for_in (range (width self)) (fun j self =>
              let* gui := call_cell (gui_board self) i j kill_cell in
              let* b := set_item (board self) i j 0 in
              Ok (mkCanvas (width self) (height self) b gui)) self)
    as (c' & Hc' & HP & Hshape & Hzero).
  - intros i j s Hi Hj (Hsw & Hsh & Hbw & Hbh & Hsg & Hsc) Hsb.
    destruct (Hsc i j Hi Hj) as [x Hx].
    rewrite (call_cell_inside _ _ _ i j kill_cell x Hsg Hi Hj Hx). cbn [bind].
    assert (Hshape : Board_shape (board s))
      by (unfold Board_shape; rewrite Hbw, Hbh; exact Hsb).
    assert (Hin : in_grid (board s) i j)
      by (unfold in_grid; rewrite Hbw, Hbh; split; assumption).
    rewrite (set_item_inside (board s) i j 0 Hshape Hin).
    cbn [bind]. eexists. split; [reflexivity|]. simpl.
    split; [|reflexivity].
    split; [exact Hsw|]. split; [exact Hsh|].
    split; [exact Hbw|]. split; [exact Hbh|]. split.
    + apply grid_update_shape; exact Hsg.
    + intros i' j' Hi' Hj'.
      destruct (Z.eq_dec i' i) as [->|Hne]; [destruct (Z.eq_dec j' j) as [->|Hne]|].
      * exists (kill_cell x). apply (lookup2_update_eq _ _ _ i j _ Hsg Hi Hj).
      * rewrite lookup2_update_ne by lia. apply Hsc; assumption.
      * rewrite lookup2_update_ne by lia. apply Hsc; assumption.
  - intros i t _ (Htw & _). rewrite Htw. reflexivity.
  - split; [reflexivity|]. split; [reflexivity|].
    split; [congruence|]. split; [congruence|].
    split; [exact Hgui|exact Hcells].
  - unfold Board_shape in Hb. rewrite <- Hw, <- Hh in Hb. exact Hb.
  - exists c'. split; [exact Hc'|].
    destruct HP as (Hsw & Hsh & Hbw & Hbh & Hsg & Hsc).
    split; [|split; [exact Hsw|split; [exact Hsh|]]].
    + unfold Canvas_ok, Board_shape. rewrite Hsw, Hsh, Hbw, Hbh. auto.
    + intros i j [Hi Hj]. apply Hzero; lia.
Qed.

(** C9. On a canvas that agrees with its board on the dimensions, whose
    board's grid has that shape and whose visual grid holds a cell at every
    position, [reset_game] succeeds, and afterwards [get_item] answers Dead
    at every position of the grid. *)
Theorem reset_game_all_dead (c : Canvas) :
  Canvas_ok c ->
  exists c',
    reset_game c = Ok c' /\
    _width (board c') = _width (board c) /\
    _height (board c') = _height (board c) /\
    forall i j, in_grid (board c') i j -> get_item (board c') i j = Ok Dead.
Proof.
  intros Hok.
  destruct (reset_game_cells c Hok) as (c' & Hreset & Hok' & Hw & Hh & Hzero).
  destruct Hok as (Hcw & Hch & _), Hok' as (Hcw' & Hch' & Hb' & _).
  exists c'. split; [exact Hreset|].
  split; [congruence|]. split; [congruence|].
  intros i j Hin. rewrite (get_item_cell _ i j Hb' Hin). unfold cell.
  rewrite Hzero; [reflexivity|].
  unfold in_grid in *. rewrite <- Hcw, <- Hch, <- Hw, <- Hh, Hcw', Hch'.
  exact Hin.
Qed.

Lemma canvas2x3_ok : Canvas_ok canvas2x3.
Proof.
  split; [reflexivity|]. split; [reflexivity|].
  split; [split; [reflexivity|repeat constructor]|].
  split; [split; [reflexivity|repeat constructor]|].
  intros i j Hi Hj. simpl in Hi, Hj.
  assert (Hi' : i = 0 \/ i = 1 \/ i = 2) by lia.
  assert (Hj' : j = 0 \/ j = 1) by lia.
  destruct Hi' as [-> | [-> | ->]]; destruct Hj' as [-> | ->];
    eexists; reflexivity.
Qed.

Lemma reset_game_all_dead_witness :
  exists c',
    reset_game canvas2x3 = Ok c' /\
    _width (board c') = _width (board canvas2x3) /\
    _height (board c') = _height (board canvas2x3) /\
    forall i j, in_grid (board c') i j -> get_item (board c') i j = Ok Dead.
Proof. apply (reset_game_all_dead canvas2x3). exact canvas2x3_ok. Defined.

(** ** The invariant of the board *)

Lemma binary_of_cells (g : list (list Z)) :
  (forall i j v, lookup2 g i j = Some v -> binary v) ->
  Forall (Forall binary) g.
Proof.
  intros H. apply Forall_lookup. intros k r Hr.
  apply Forall_lookup. intros m x Hx.
  apply (H (Z.of_nat k) (Z.of_nat m)). unfold lookup2.
  destruct (Z.leb_spec 0 (Z.of_nat k)); [|lia].
  destruct (Z.leb_spec 0 (Z.of_nat m)); [|lia].
  simpl. rewrite !Nat2Z.id, Hr. exact Hx.
Qed.

Lemma grid_update_binary (g : list (list Z)) (i j v : Z) :
  Forall (Forall binary) g -> binary v ->
  Forall (Forall binary) (grid_update g i j v).
Proof.
  intros Hg Hv. unfold grid_update. apply Forall_alter; [exact Hg|].
  intros r _ Hr. apply Forall_insert; assumption.
Qed.

Lemma set_item_Ok_inside (b b' : Board) (r c v : Z) :
  Board_shape b -> set_item b r c v = Ok b' ->
  in_grid b r c /\ b' = with_state b (grid_update (_state b) r c v).
Proof.
  intros Hb Hset.
  destruct (in_gridb b r c) eqn:Hin.
  - apply in_gridb_spec in Hin. split; [exact Hin|].
    rewrite (set_item_inside b r c v Hb Hin) in Hset. congruence.
  - destruct (set_item_outside b r c v Hb) as [e He].
    + intros Hin'. apply in_gridb_spec in Hin'. congruence.
    + congruence.
Qed.

Lemma init_shape (w h : Z) :
  0 <= w -> 0 <= h ->
  Board_inv (mkBoard w h (map (fun _ => repeat_list 0 w) (range h))).
Proof.
  intros Hw Hh. split.
  - apply fresh_grid_shape; lia.
  - unfold Board_binary. cbn [_state].
    apply binary_of_cells. intros i j v Hv.
    assert (Hs : grid_shape h w (map (fun _ : Z => repeat_list 0 w) (range h)))
      by (apply fresh_grid_shape; lia).
    destruct (lookup2_Some_inside _ _ _ _ _ _ Hs Hv) as [Hi Hj].
    rewrite fresh_grid_lookup2 in Hv by assumption.
    injection Hv as <-. left. reflexivity.
Qed.

Lemma randomize_board_inv (b : Board) (g : Random) :
  Board_inv b ->
  exists b' g', randomize_board b g = Ok (b', g') /\
    same_dims b b' /\ Board_inv b'.
Proof.
  intros [Hb Hbin]. unfold randomize_board.
  destruct (Board_shape_dims b Hb) as [Hh Hw].
  pose (Inv := fun s : Board * Random => same_dims b (fst s) /\ Board_inv (fst s)).
  destruct (for_in_range
    (fun i s =>
       for_in (range (_width (fst s))) (fun j s =>
         let (v, g') := randint (snd s) 0 1 in
         let* b0 := state_assign (fst s) i j v in Ok (b0, g')) s)
    (fun _ s => Inv s) (_height b) (b, g) Hh) as (s' & Hs' & Hdims & Hinv).
  - split; [split; reflexivity|]. split; assumption.
  - intros i s Hi [[Hsw Hsh] Hs].
    assert (Hw' : 0 <= _width (fst s)) by (rewrite Hsw; apply Hw; lia).
    destruct (for_in_range
      (fun j s =>
         let (v, g') := randint (snd s) 0 1 in
         let* b0 := state_assign (fst s) i j v in Ok (b0, g'))
      (fun _ t => Inv t) (_width (fst s)) s Hw') as (t & Ht & HIt).
    + split; [split; assumption|exact Hs].
    + intros j t Hj [[Htw Hth] [Hts Htb]].
      destruct (randint (snd t) 0 1) as [v g'] eqn:Hr.
      assert (Hv : binary v).
      { unfold randint in Hr. injection Hr as <- _. unfold binary, Dead, Alive.
        change (1 - 0 + 1) with 2.
        pose proof (Z.mod_pos_bound (Z.of_nat (draws (snd t) (used (snd t)))) 2).
        lia. }
      rewrite state_assign_inside
        by (try exact Hts; unfold in_grid; rewrite Htw, Hth; lia).
      cbn [bind]. eexists. split; [reflexivity|].
      split; [split; assumption|]. split.
      * apply with_state_update_shape; exact Hts.
      * apply grid_update_binary; assumption.
    + exists t. split; [exact Ht|exact HIt].
  - destruct s' as [b' g']. exists b', g'. split; [exact Hs'|].
    split; [exact Hdims|exact Hinv].
Qed.

Lemma next_state_inv (b : Board) :
  Board_shape b ->
  exists b', next_state b = Ok b' /\ same_dims b b' /\ Board_inv b'.
Proof.
  intros Hb.
  destruct (next_state_cells b Hb) as (b' & Hn & Hw & Hh & Hb' & Hcells).
  exists b'. split; [exact Hn|]. split; [split; assumption|].
  split; [exact Hb'|].
  apply binary_of_cells. intros i j v Hv.
  destruct (lookup2_Some_inside _ _ _ _ _ _ Hb' Hv) as [Hi Hj].
  rewrite Hcells in Hv by (split; lia). injection Hv as <-.
  destruct (rule_binary (cell b i j) (neighbor_sum b i j)) as [-> | ->];
    [right|left]; reflexivity.
Qed.

Lemma reset_game_inv (c : Canvas) :
  Canvas_ok c ->
  exists c', reset_game c = Ok c' /\
    same_dims (board c) (board c') /\ Board_inv (board c').
Proof.
  intros Hok.
  destruct (reset_game_cells c Hok) as (c' & Hreset & Hok' & Hw & Hh & Hzero).
  destruct Hok as (Hcw & Hch & _), Hok' as (Hcw' & Hch' & Hb' & _).
  exists c'. split; [exact Hreset|].
  split; [split; congruence|]. split; [exact Hb'|].
  apply binary_of_cells. intros i j v Hv.
  destruct (lookup2_Some_inside _ _ _ _ _ _ Hb' Hv) as [Hi Hj].
  rewrite Hzero in Hv by (split; lia). injection Hv as <-. left. reflexivity.
Qed.

(** C3 as stated does not hold.  [set_item] stores whatever integer it is
    given: on a board satisfying the invariant, [set_item 0 0 5] succeeds
    and the cell then reads 5, neither Dead nor Alive.  And the constructor
    accepts negative dimensions: [Board(-1, -2)] has no row, not -2. *)
Lemma invariant_not_enforced :
  (Board_inv dead3x2 /\
   exists b', set_item dead3x2 0 0 5 = Ok b' /\
     get_item b' 0 0 = Ok 5 /\ ~ Board_inv b') /\
  (exists b, __init__ (-1) (-2) = Ok b /\ ~ Board_inv b).
Proof.
  split.
  - split.
    + split; [split; [reflexivity|repeat constructor]|].
      repeat constructor; left; reflexivity.
    + eexists. split; [reflexivity|]. split; [reflexivity|].
      intros [_ Hbin]. unfold Board_binary in Hbin. simpl in Hbin.
      inversion Hbin as [|r rs Hr _]. inversion Hr as [|x xs Hx _].
      destruct Hx as [Hx | Hx]; discriminate Hx.
  - eexists. split; [reflexivity|].
    intros [[Hlen _] _]. simpl in Hlen. discriminate Hlen.
Qed.

(** C3, amended.  A board constructed with a width and a height that are not
    negative has [_height] rows of [_width] cells, all Dead.  From a board
    with [_height] rows of [_width] cells, each Dead or Alive: a [set_item]
    that succeeds with a value Dead or Alive, [randomize_board],
    [reset_game] of the canvas that owns the board, and [next_state] all
    leave [_width] and [_height] as they were and give a board with
    [_height] rows of [_width] cells, each Dead or Alive.  Cells are
    integers: inside the grid [set_item] succeeds with any value and the
    cell then reads that value. *)
Theorem board_invariant_preserved :
  (forall w h, 0 <= w -> 0 <= h ->
     exists b, __init__ w h = Ok b /\
       _width b = w /\ _height b = h /\ Board_inv b /\
       forall i j, in_grid b i j -> get_item b i j = Ok Dead) /\
  (forall b r c v b', Board_inv b -> binary v -> set_item b r c v = Ok b' ->
     same_dims b b' /\ Board_inv b') /\
  (forall b g, Board_inv b ->
     exists b' g', randomize_board b g = Ok (b', g') /\
       same_dims b b' /\ Board_inv b') /\
  (forall c, Canvas_ok c -> Board_inv (board c) ->
     exists c', reset_game c = Ok c' /\
       same_dims (board c) (board c') /\ Board_inv (board c')) /\
  (forall b, Board_inv b ->
     exists b', next_state b = Ok b' /\ same_dims b b' /\ Board_inv b') /\
  (forall b r c v, Board_inv b -> in_grid b r c ->
     exists b', set_item b r c v = Ok b' /\
       same_dims b b' /\ Board_shape b' /\ get_item b' r c = Ok v).
Proof.
  split; [|split; [|split; [|split; [|split]]]].
  - intros w h Hw Hh. eexists. split; [reflexivity|].
    split; [reflexivity|]. split; [reflexivity|].
    split; [apply init_shape; assumption|].
    intros i j Hin.
    assert (Hb : Board_shape
              (mkBoard w h (map (fun _ => repeat_list 0 w) (range h))))
      by (apply init_shape; assumption).
    rewrite (get_item_cell _ i j Hb Hin). unfold cell.
    destruct Hin as [Hi Hj]. cbn [_state _width _height] in *.
    rewrite fresh_grid_lookup2 by assumption. reflexivity.
  - intros b r c v b' [Hb Hbin] Hv Hset.
    destruct (set_item_Ok_inside b b' r c v Hb Hset) as [Hin ->].
    split; [split; reflexivity|]. split.
    + apply with_state_update_shape; exact Hb.
    + apply grid_update_binary; assumption.
  - intros b g Hb. apply randomize_board_inv; exact Hb.
  - intros c Hok _. apply reset_game_inv; exact Hok.
  - intros b [Hb _]. apply next_state_inv; exact Hb.
  - intros b r c v [Hb _] Hin. eexists.
    split; [apply set_item_inside; assumption|].
    split; [split; reflexivity|].
    assert (Hb' : Board_shape (with_state b (grid_update (_state b) r c v)))
      by (apply with_state_update_shape; exact Hb).
    split; [exact Hb'|].
    rewrite (get_item_cell _ r c Hb' Hin). unfold cell. cbn [_state with_state].
    destruct Hin as [Hr Hc].
    rewrite (lookup2_update_eq _ _ _ r c v Hb Hr Hc). reflexivity.
Qed.

Lemma dead3x2_inv : Board_inv dead3x2.
Proof.
  split; [split; [reflexivity|repeat constructor]|].
  repeat constructor; left; reflexivity.
Qed.

Lemma canvas2x3_board_inv : Board_inv (board canvas2x3).
Proof.
  split; [split; [reflexivity|repeat constructor]|].
  repeat constructor; (left; reflexivity) || (right; reflexivity).
Qed.

Lemma board_invariant_preserved_witness :
  (exists b, __init__ 2 3 = Ok b /\
     _width b = 2 /\ _height b = 3 /\ Board_inv b /\
     forall i j, in_grid b i j -> get_item b i j = Ok Dead) /\
  (same_dims dead3x2 (mkBoard 2 3 [[0; 0]; [0; 1]; [0; 0]]) /\
   Board_inv (mkBoard 2 3 [[0; 0]; [0; 1]; [0; 0]])) /\
  (exists b' g', randomize_board dead3x2 (mkRandom (fun k => k) 0) = Ok (b', g') /\
     same_dims dead3x2 b' /\ Board_inv b') /\
  (exists c', reset_game canvas2x3 = Ok c' /\
     same_dims (board canvas2x3) (board c') /\ Board_inv (board c')) /\
  (exists b', next_state dead3x2 = Ok b' /\
     same_dims dead3x2 b' /\ Board_inv b') /\
  (exists b', set_item dead3x2 2 1 5 = Ok b' /\
     same_dims dead3x2 b' /\ Board_shape b' /\ get_item b' 2 1 = Ok 5).
Proof.
  destruct board_invariant_preserved
    as (Hinit & Hset & Hrand & Hreset & Hstep & Hany).
  split; [|split; [|split; [|split; [|split]]]].
  - apply (Hinit 2 3); lia.
  - apply (Hset dead3x2 1 1 1).
    + exact dead3x2_inv.
    + right. reflexivity.
    + reflexivity.
  - apply (Hrand dead3x2). exact dead3x2_inv.
  - apply (Hreset canvas2x3).
    + exact canvas2x3_ok.
    + exact canvas2x3_board_inv.
  - apply (Hstep dead3x2). exact dead3x2_inv.
  - apply (Hany dead3x2 2 1 5).
    + exact dead3x2_inv.
    + unfold in_grid. simpl. lia.
Defined.

(** C5 as stated does not hold: the constructor has no check, and for a
    width of 0 and a height of -3 it returns a board with no row. *)
Lemma init_accepts_nonpositive :
  (0 <= 0 \/ -3 <= 0) /\
  __init__ 0 (-3) = Ok (mkBoard 0 (-3) []) /\
  ~ raises (__init__ 0 (-3)).
Proof.
  split; [left; lia|]. split; [reflexivity|].
  intros [e He]. discriminate He.
Qed.

(** C5, amended.  For every width and height the constructor succeeds: it
    returns a board that records those dimensions and whose grid has
    [max height 0] rows of [max width 0] cells, all Dead.  When the width
    and the height are positive this is a board of those dimensions on which
    [get_item] answers Dead at every position of the grid. *)
Theorem init_never_fails (w h : Z) :
  exists b,
    __init__ w h = Ok b /\
    _width b = w /\ _height b = h /\
    _state b = replicate (Z.to_nat (Z.max h 0)) (replicate (Z.to_nat (Z.max w 0)) Dead) /\
    (0 < w -> 0 < h ->
     Board_shape b /\ forall i j, in_grid b i j -> get_item b i j = Ok Dead).
Proof.
  eexists. split; [reflexivity|]. cbn [_width _height _state].
  split; [reflexivity|]. split; [reflexivity|]. split.
  - unfold range, repeat_list, seqZ.
    rewrite <- list_fmap_compose.
    replace (Z.to_nat (Z.max h 0)) with (Z.to_nat h) by lia.
    replace (Z.to_nat (Z.max w 0)) with (Z.to_nat w) by lia.
    generalize (Z.to_nat h) as n. generalize 0%nat as k.
    intros k n. revert k. induction n as [|n IH]; intros k; [reflexivity|].
    simpl. f_equal. apply IH.
  - intros Hw Hh.
    assert (Hb : Board_shape (mkBoard w h (map (fun _ => repeat_list 0 w) (range h))))
      by (apply fresh_grid_shape; lia).
    split; [exact Hb|].
    intros i j Hin. rewrite (get_item_cell _ i j Hb Hin). unfold cell.
    destruct Hin as [Hi Hj]. cbn [_state _width _height] in *.
    rewrite fresh_grid_lookup2 by assumption. reflexivity.
Qed.

Lemma init_never_fails_witness :
  exists b,
    __init__ 2 3 = Ok b /\
    _width b = 2 /\ _height b = 3 /\
    _state b = replicate (Z.to_nat (Z.max 3 0)) (replicate (Z.to_nat (Z.max 2 0)) Dead) /\
    (0 < 2 -> 0 < 3 ->
     Board_shape b /\ forall i j, in_grid b i j -> get_item b i j = Ok Dead).
Proof. exact (init_never_fails 2 3). Defined.

(** C2: the assertion of [get_item] and [set_item] compares with [<=].  On a
    board whose grid has [_height] rows of [_width] cells, a row equal to
    [_height] passes the assertion, and the call fails only when the list is
    indexed, with [IndexError]; so does a column equal to [_width]. *)
Theorem index_assertion_admits_edge (b : Board) (r c v : Z) :
  Board_shape b ->
  0 <= r <= _height b -> 0 <= c <= _width b ->
  r = _height b \/ c = _width b ->
  index_assertion b r c = true /\
  get_item b r c = Raise IndexError /\
  set_item b r c v = Raise IndexError.
Proof.
  intros Hb Hr Hc Hedge.
  assert (Ha : index_assertion b r c = true).
  { unfold index_assertion.
    repeat (apply andb_true_intro; split); apply Z.leb_le; lia. }
  split; [exact Ha|]. split.
  - rewrite get_item_lookup2, Ha.
    rewrite (lookup2_outside _ _ _ _ _ Hb) by lia. reflexivity.
  - unfold set_item, state_assign. rewrite Ha. cbn [py_assert bind].
    rewrite (setitem2_outside _ _ _ r c v Hb) by lia. reflexivity.
Qed.

Lemma index_assertion_admits_edge_witness :
  index_assertion dead3x2 3 0 = true /\
  get_item dead3x2 3 0 = Raise IndexError /\
  set_item dead3x2 3 0 1 = Raise IndexError.
Proof.
  apply (index_assertion_admits_edge dead3x2 3 0 1).
  - exact (proj1 dead3x2_inv).
  - simpl. lia.
  - simpl. lia.
  - left. reflexivity.
Defined.

(** ** Further properties of the board *)

Lemma index_assertion_spec (b : Board) (r c : Z) :
  index_assertion b r c = true <->
  0 <= r <= _height b /\ 0 <= c <= _width b.
Proof.
  unfold index_assertion. rewrite !andb_true_iff, !Z.leb_le. tauto.
Qed.

(** X1. On a board whose grid has [_height] rows of [_width] cells,
    [get_item] has exactly three outcomes: inside the grid it returns the
    cell; at a row equal to [_height] or a column equal to [_width] (the
    other index between 0 and its bound, included) it raises [IndexError];
    everywhere else, in particular at every negative index, it raises
    [AssertionError].  It never wraps a negative index around. *)
Theorem get_item_outcomes (b : Board) (r c : Z) :
  Board_shape b ->
  (in_grid b r c -> exists v, get_item b r c = Ok v /\
     lookup2 (_state b) r c = Some v) /\
  (0 <= r <= _height b -> 0 <= c <= _width b ->
     r = _height b \/ c = _width b -> get_item b r c = Raise IndexError) /\
  (r < 0 \/ _height b < r \/ c < 0 \/ _width b < c ->
     get_item b r c = Raise AssertionError).
Proof.
  intros Hb. split; [|split].
  - intros Hin. exists (cell b r c). split.
    + apply get_item_cell; assumption.
    + apply lookup2_cell; assumption.
  - intros Hr Hc Hedge. rewrite get_item_lookup2.
    rewrite (proj2 (index_assertion_spec b r c)) by (split; assumption).
    rewrite (lookup2_outside _ _ _ _ _ Hb) by lia. reflexivity.
  - intros Hout. rewrite get_item_lookup2.
    destruct (index_assertion b r c) eqn:Ha; [|reflexivity].
    apply index_assertion_spec in Ha. lia.
Qed.

Lemma get_item_outcomes_witness :
  (exists v, get_item blinker5 2 1 = Ok v /\
     lookup2 (_state blinker5) 2 1 = Some v) /\
  get_item blinker5 5 1 = Raise IndexError /\
  get_item blinker5 (-1) 1 = Raise AssertionError.
Proof.
  destruct (get_item_outcomes blinker5 2 1 blinker5_shape) as (H1 & _ & _).
  destruct (get_item_outcomes blinker5 5 1 blinker5_shape) as (_ & H2 & _).
  destruct (get_item_outcomes blinker5 (-1) 1 blinker5_shape) as (_ & _ & H3).
  split; [apply H1; unfold in_grid; simpl; lia|].
  split; [apply H2; simpl; lia|apply H3; lia].
Defined.

(** X2. On a board whose grid has [_height] rows of [_width] cells,
    [set_item] with any value has the same three outcomes as [get_item]:
    inside the grid it succeeds and the cell then reads the value given,
    whatever integer it is; at a row equal to [_height] or a column equal to
    [_width] it raises [IndexError]; everywhere else it raises
    [AssertionError]. *)
Theorem set_item_outcomes (b : Board) (r c v : Z) :
  Board_shape b ->
  (in_grid b r c -> exists b', set_item b r c v = Ok b' /\
     same_dims b b' /\ Board_shape b' /\ get_item b' r c = Ok v) /\
  (0 <= r <= _height b -> 0 <= c <= _width b ->
     r = _height b \/ c = _width b -> set_item b r c v = Raise IndexError) /\
  (r < 0 \/ _height b < r \/ c < 0 \/ _width b < c ->
     set_item b r c v = Raise AssertionError).
Proof.
  intros Hb. split; [|split].
  - intros Hin. eexists. split; [apply set_item_inside; assumption|].
    split; [split; reflexivity|].
    assert (Hb' : Board_shape (with_state b (grid_update (_state b) r c v)))
      by (apply with_state_update_shape; exact Hb).
    split; [exact Hb'|].
    rewrite (get_item_cell _ r c Hb' Hin). unfold cell. cbn [_state with_state].
    destruct Hin as [Hr Hc].
    rewrite (lookup2_update_eq _ _ _ r c v Hb Hr Hc). reflexivity.
  - intros Hr Hc Hedge. unfold set_item, state_assign.
    rewrite (proj2 (index_assertion_spec b r c)) by (split; assumption).
    cbn [py_assert bind].
    rewrite (setitem2_outside _ _ _ r c v Hb) by lia. reflexivity.
  - intros Hout. unfold set_item.
    destruct (index_assertion b r c) eqn:Ha; [|reflexivity].
    apply index_assertion_spec in Ha. lia.
Qed.

Lemma set_item_outcomes_witness :
  (exists b', set_item blinker5 0 0 7 = Ok b' /\
     same_dims blinker5 b' /\ Board_shape b' /\ get_item b' 0 0 = Ok 7) /\
  set_item blinker5 2 5 7 = Raise IndexError /\
  set_item blinker5 6 0 7 = Raise AssertionError.
Proof.
  destruct (set_item_outcomes blinker5 0 0 7 blinker5_shape) as (H1 & _ & _).
  destruct (set_item_outcomes blinker5 2 5 7 blinker5_shape) as (_ & H2 & _).
  destruct (set_item_outcomes blinker5 6 0 7 blinker5_shape) as (_ & _ & H3).
  split; [apply H1; unfold in_grid; simpl; lia|].
  split; [apply H2; simpl; lia|apply H3; simpl; lia].
Defined.

Lemma board_ext (b b' : Board) :
  Board_shape b -> Board_shape b' -> same_dims b b' ->
  (forall i j, in_grid b i j ->
     lookup2 (_state b') i j = lookup2 (_state b) i j) ->
  b' = b.
Proof.
  intros Hb Hb' [Hw Hh] Hcells.
  assert (Hst : _state b' = _state b).
  { apply (grid_ext (_height b) (_width b)).
    - unfold Board_shape in Hb'. rewrite Hw, Hh in Hb'. exact Hb'.
    - exact Hb.
    - intros i j Hi Hj. apply Hcells. split; assumption. }
  destruct b, b'. simpl in *. congruence.
Qed.

Lemma lookup2_update (g : list (list Z)) (h w i j i' j' v : Z) :
  grid_shape h w g -> 0 <= i < h -> 0 <= j < w ->
  lookup2 (grid_update g i j v) i' j' =
  if (i' =? i) && (j' =? j) then Some v else lookup2 g i' j'.
Proof.
  intros Hg Hi Hj.
  destruct (Z.eqb_spec i' i) as [->|Hne]; [destruct (Z.eqb_spec j' j) as [->|Hne]|];
    simpl.
  - apply (lookup2_update_eq g h w); assumption.
  - apply lookup2_update_ne; lia.
  - apply lookup2_update_ne; lia.
Qed.

(** X3. On a board whose grid has [_height] rows of [_width] cells, two
    [set_item] at the same position inside the grid leave the board that the
    second one alone gives: the last value written wins. *)
Theorem set_item_last_write_wins (b : Board) (r c v v' : Z) :
  Board_shape b -> in_grid b r c ->
  (let* b1 := set_item b r c v in set_item b1 r c v') = set_item b r c v'.
Proof.
  intros Hb Hin. rewrite (set_item_inside b r c v Hb Hin). cbn [bind].
  assert (Hb1 : Board_shape (with_state b (grid_update (_state b) r c v)))
    by (apply with_state_update_shape; exact Hb).
  rewrite (set_item_inside _ r c v' Hb1 Hin).
  rewrite (set_item_inside b r c v' Hb Hin). f_equal.
  apply board_ext.
  - apply with_state_update_shape; exact Hb.
  - apply with_state_update_shape; exact Hb1.
  - split; reflexivity.
  - intros i j _. destruct Hin as [Hr Hc].
    unfold Board_shape in Hb, Hb1. cbn [_state _width _height with_state] in *.
    rewrite (lookup2_update _ _ _ r c i j v' Hb1 Hr Hc).
    rewrite (lookup2_update _ _ _ r c i j v' Hb Hr Hc).
    destruct ((i =? r) && (j =? c)) eqn:E; [reflexivity|].
    rewrite (lookup2_update _ _ _ r c i j v Hb Hr Hc), E. reflexivity.
Qed.

Lemma set_item_last_write_wins_witness :
  (let* b1 := set_item blinker5 4 4 1 in set_item b1 4 4 0)
  = set_item blinker5 4 4 0.
Proof.
  apply (set_item_last_write_wins blinker5 4 4 1 0).
  - exact blinker5_shape.
  - unfold in_grid. simpl. lia.
Defined.

(** X4. On a board whose grid has [_height] rows of [_width] cells, two
    [set_item] at different positions inside the grid give the same board in
    either order. *)
Theorem set_item_commute (b : Board) (r1 c1 v1 r2 c2 v2 : Z) :
  Board_shape b -> in_grid b r1 c1 -> in_grid b r2 c2 ->
  (r1, c1) <> (r2, c2) ->
  (let* b1 := set_item b r1 c1 v1 in set_item b1 r2 c2 v2)
  = (let* b2 := set_item b r2 c2 v2 in set_item b2 r1 c1 v1).
Proof.
  intros Hb Hin1 Hin2 Hne.
  rewrite (set_item_inside b r1 c1 v1 Hb Hin1).
  rewrite (set_item_inside b r2 c2 v2 Hb Hin2). cbn [bind].
  assert (Hb1 : Board_shape (with_state b (grid_update (_state b) r1 c1 v1)))
    by (apply with_state_update_shape; exact Hb).
  assert (Hb2 : Board_shape (with_state b (grid_update (_state b) r2 c2 v2)))
    by (apply with_state_update_shape; exact Hb).
  rewrite (set_item_inside _ r2 c2 v2 Hb1 Hin2).
  rewrite (set_item_inside _ r1 c1 v1 Hb2 Hin1). f_equal.
  apply board_ext.
  - apply with_state_update_shape; exact Hb2.
  - apply with_state_update_shape; exact Hb1.
  - split; reflexivity.
  - intros i j _. destruct Hin1 as [Hr1 Hc1], Hin2 as [Hr2 Hc2].
    unfold Board_shape in Hb, Hb1, Hb2.
    cbn [_state _width _height with_state] in *.
    rewrite (lookup2_update _ _ _ r2 c2 i j v2 Hb1 Hr2 Hc2).
    rewrite (lookup2_update _ _ _ r1 c1 i j v1 Hb2 Hr1 Hc1).
    rewrite (lookup2_update _ _ _ r1 c1 i j v1 Hb Hr1 Hc1).
    rewrite (lookup2_update _ _ _ r2 c2 i j v2 Hb Hr2 Hc2).
    destruct (Z.eqb_spec i r1), (Z.eqb_spec j c1), (Z.eqb_spec i r2),
      (Z.eqb_spec j c2); simpl; try reflexivity.
    subst. exfalso. apply Hne. reflexivity.
Qed.

Lemma set_item_commute_witness :
  (let* b1 := set_item blinker5 0 0 1 in set_item b1 4 4 1)
  = (let* b2 := set_item blinker5 4 4 1 in set_item b2 0 0 1).
Proof.
  apply (set_item_commute blinker5 0 0 1 4 4 1).
  - exact blinker5_shape.
  - unfold in_grid. simpl. lia.
  - unfold in_grid. simpl. lia.
  - intros H. discriminate H.
Defined.

(** X5. On a board whose grid has [_height] rows of [_width] cells, writing
    back with [set_item] the value that [get_item] returned at a position
    leaves the board as it was. *)
Theorem set_item_of_get_item (b : Board) (r c v : Z) :
  Board_shape b -> get_item b r c = Ok v -> set_item b r c v = Ok b.
Proof.
  intros Hb Hget.
  assert (Hin : in_grid b r c).
  { destruct (in_gridb b r c) eqn:E; [apply in_gridb_spec; exact E|].
    destruct (get_item_outside b r c Hb) as [e He].
    - intros Hin. apply in_gridb_spec in Hin. congruence.
    - congruence. }
  rewrite (get_item_cell b r c Hb Hin) in Hget. injection Hget as Hv.
  rewrite (set_item_inside b r c v Hb Hin). f_equal.
  apply board_ext.
  - exact Hb.
  - apply with_state_update_shape; exact Hb.
  - split; reflexivity.
  - intros i j Hij. cbn [_state with_state]. destruct Hin as [Hr Hc].
    rewrite (lookup2_update _ _ _ r c i j v Hb Hr Hc).
    destruct (Z.eqb_spec i r) as [->|]; [destruct (Z.eqb_spec j c) as [->|]|];
      simpl; try reflexivity.
    rewrite (lookup2_cell b r c Hb (conj Hr Hc)), Hv. reflexivity.
Qed.

Lemma set_item_of_get_item_witness : set_item blinker5 2 2 1 = Ok blinker5.
Proof.
  apply (set_item_of_get_item blinker5 2 2 1).
  - exact blinker5_shape.
  - reflexivity.
Defined.

Lemma count_alive_neighbors_asserted (b : Board) (r c : Z) :
  Board_shape b -> index_assertion b r c = true ->
  count_alive_neighbors b r c = Ok (neighbor_sum b r c).
Proof.
  intros Hb Ha. unfold count_alive_neighbors. rewrite Ha.
  change (range (Z.of_nat (length dr))) with [0; 1; 2; 3; 4; 5; 6; 7].
  cbn [bind py_assert for_in].
  change (getitem dr 0) with (Ok 0); change (getitem dc 0) with (Ok (-1)).
  change (getitem dr 1) with (Ok 0); change (getitem dc 1) with (Ok 1).
  change (getitem dr 2) with (Ok 1); change (getitem dc 2) with (Ok (-1)).
  change (getitem dr 3) with (Ok 1); change (getitem dc 3) with (Ok 0).
  change (getitem dr 4) with (Ok 1); change (getitem dc 4) with (Ok 1).
  change (getitem dr 5) with (Ok (-1)); change (getitem dc 5) with (Ok (-1)).
  change (getitem dr 6) with (Ok (-1)); change (getitem dc 6) with (Ok 0).
  change (getitem dr 7) with (Ok (-1)); change (getitem dc 7) with (Ok 1).
  cbn [bind].
  repeat (rewrite neighbor_step by exact Hb; cbn [bind]).
  reflexivity.
Qed.

Lemma cell_in_gridb (b : Board) (i j : Z) :
  Board_shape b ->
  cell b i j = if in_gridb b i j then value_at b (i, j) else 0.
Proof.
  intros Hb. unfold cell, value_at. cbn [fst snd].
  destruct (in_gridb b i j) eqn:E; [reflexivity|].
  rewrite (lookup2_outside _ _ _ _ _ Hb); [reflexivity|].
  intros Hin. apply in_gridb_spec in Hin. congruence.
Qed.

Lemma neighbor_sum_moore (b : Board) (r c : Z) :
  Board_shape b -> neighbor_sum b r c = moore_value_sum b r c.
Proof.
  intros Hb. unfold neighbor_sum, moore_value_sum, moore_positions.
  cbn [flat_map app Z.eqb andb].
  rewrite !(cell_in_gridb b _ _ Hb).
  cbn [List.filter fst snd].
  repeat match goal with
  | |- context [in_gridb b ?x ?y] => destruct (in_gridb b x y)
  end; cbn [map fold_right]; lia.
Qed.

(** X6. On a board whose grid has [_height] rows of [_width] cells holding
    any integers, [count_alive_neighbors] returns, for every row between 0
    and [_height] and column between 0 and [_width] (both bounds included,
    so also one step past the last row or column), the sum of the integers
    stored at the Moore-neighborhood positions that lie within the grid; for
    any other position it raises [AssertionError].  It never raises
    [IndexError]. *)
Theorem count_alive_neighbors_outcomes (b : Board) (r c : Z) :
  Board_shape b ->
  (0 <= r <= _height b -> 0 <= c <= _width b ->
     count_alive_neighbors b r c = Ok (moore_value_sum b r c)) /\
  (r < 0 \/ _height b < r \/ c < 0 \/ _width b < c ->
     count_alive_neighbors b r c = Raise AssertionError).
Proof.
  intros Hb. split.
  - intros Hr Hc. rewrite <- (neighbor_sum_moore b r c Hb).
    apply count_alive_neighbors_asserted; [exact Hb|].
    apply index_assertion_spec. split; assumption.
  - intros Hout. unfold count_alive_neighbors.
    destruct (index_assertion b r c) eqn:Ha; [|reflexivity].
    apply index_assertion_spec in Ha. lia.
Qed.

Lemma count_alive_neighbors_outcomes_witness :
  count_alive_neighbors blinker5 5 2 = Ok (moore_value_sum blinker5 5 2) /\
  count_alive_neighbors blinker5 6 2 = Raise AssertionError.
Proof.
  destruct (count_alive_neighbors_outcomes blinker5 5 2 blinker5_shape)
    as (H1 & _).
  destruct (count_alive_neighbors_outcomes blinker5 6 2 blinker5_shape)
    as (_ & H2).
  split; [apply H1; simpl; lia|apply H2; simpl; lia].
Defined.

Lemma cell_after_update (b : Board) (r c v x y : Z) :
  Board_shape b -> in_grid b r c ->
  cell (with_state b (grid_update (_state b) r c v)) x y =
  if (x =? r) && (y =? c) then v else cell b x y.
Proof.
  intros Hb [Hr Hc]. unfold cell. cbn [_state with_state].
  rewrite (lookup2_update _ _ _ r c x y v Hb Hr Hc).
  destruct ((x =? r) && (y =? c)); reflexivity.
Qed.

(** X7. On a board whose grid has [_height] rows of [_width] cells, a
    [set_item] at a position inside the grid that replaces the value [old]
    by [v] changes [count_alive_neighbors] by [v - old] at the positions of
    the grid that have the written position in their Moore neighborhood,
    and leaves it as it was at every other position of the grid, the
    written position included: a cell is not its own neighbor. *)
Theorem set_item_changes_adjacent_counts (b : Board) (r c v old i j : Z) :
  Board_shape b -> in_grid b i j -> get_item b r c = Ok old ->
  exists b' n,
    set_item b r c v = Ok b' /\
    count_alive_neighbors b i j = Ok n /\
    count_alive_neighbors b' i j =
    Ok (if mem (r, c) (moore_positions i j) then n + (v - old) else n).
Proof.
  intros Hb Hij Hget.
  assert (Hrc : in_grid b r c).
  { destruct (in_gridb b r c) eqn:E; [apply in_gridb_spec; exact E|].
    destruct (get_item_outside b r c Hb) as [e He].
    - intros Hin. apply in_gridb_spec in Hin. congruence.
    - congruence. }
  rewrite (get_item_cell b r c Hb Hrc) in Hget. injection Hget as Hold.
  exists (with_state b (grid_update (_state b) r c v)), (neighbor_sum b i j).
  split; [apply set_item_inside; assumption|].
  split; [apply count_alive_neighbors_sum; assumption|].
  rewrite count_alive_neighbors_sum;
    [|apply with_state_update_shape; exact Hb|exact Hij].
  f_equal. unfold neighbor_sum.
  rewrite !(cell_after_update b r c v _ _ Hb Hrc).
  unfold mem, moore_positions. cbn [flat_map app Z.eqb andb existsb fst snd].
  subst old.
  decide_eqbs; cbn [andb orb]; subst; lia.
Qed.

Lemma set_item_changes_adjacent_counts_witness :
  exists b' n,
    set_item blinker5 2 2 0 = Ok b' /\
    count_alive_neighbors blinker5 1 2 = Ok n /\
    count_alive_neighbors b' 1 2 =
    Ok (if mem (2, 2) (moore_positions 1 2) then n + (0 - 1) else n).
Proof.
  apply (set_item_changes_adjacent_counts blinker5 2 2 0 1 1 2).
  - exact blinker5_shape.
  - unfold in_grid. simpl. lia.
  - reflexivity.
Defined.

Lemma cell_agree (b1 b2 : Board) (x y : Z) :
  Board_shape b1 -> Board_shape b2 -> same_dims b1 b2 ->
  (in_grid b1 x y -> get_item b1 x y = get_item b2 x y) ->
  cell b1 x y = cell b2 x y.
Proof.
  intros H1 H2 [Hw Hh] Hget.
  destruct (in_gridb b1 x y) eqn:E.
  - apply in_gridb_spec in E. specialize (Hget E).
    assert (E2 : in_grid b2 x y) by (unfold in_grid in *; rewrite Hw, Hh; exact E).
    rewrite (get_item_cell b1 x y H1 E), (get_item_cell b2 x y H2 E2) in Hget.
    congruence.
  - assert (E1 : ~ in_grid b1 x y)
      by (intros Hin; apply in_gridb_spec in Hin; congruence).
    assert (E2 : ~ in_grid b2 x y)
      by (unfold in_grid in *; rewrite Hw, Hh; exact E1).
    unfold cell.
    rewrite (lookup2_outside _ _ _ _ _ H1 E1), (lookup2_outside _ _ _ _ _ H2 E2).
    reflexivity.
Qed.

(** X8. The rule is local.  Two boards of the same dimensions, each with
    [_height] rows of [_width] cells, that agree at a position of the grid
    and at those of its eight Moore-neighborhood positions that lie within
    the grid, have the same cell at that position after [next_state],
    whatever the rest of the two grids holds. *)
Theorem next_state_is_local (b1 b2 : Board) (i j : Z) :
  Board_shape b1 -> Board_shape b2 -> same_dims b1 b2 -> in_grid b1 i j ->
  (forall d e, -1 <= d <= 1 -> -1 <= e <= 1 -> in_grid b1 (i + d) (j + e) ->
     get_item b1 (i + d) (j + e) = get_item b2 (i + d) (j + e)) ->
  exists b1' b2',
    next_state b1 = Ok b1' /\ next_state b2 = Ok b2' /\
    get_item b1' i j = get_item b2' i j.
Proof.
  intros H1 H2 Hdims Hin Hagree.
  destruct (next_state_cells b1 H1) as (b1' & Hn1 & Hw1 & Hh1 & Hs1 & Hc1).
  destruct (next_state_cells b2 H2) as (b2' & Hn2 & Hw2 & Hh2 & Hs2 & Hc2).
  exists b1', b2'. split; [exact Hn1|]. split; [exact Hn2|].
  assert (Hin2 : in_grid b2 i j)
    by (destruct Hdims as [Hw Hh]; unfold in_grid in *; rewrite Hw, Hh; exact Hin).
  assert (Hin1' : in_grid b1' i j)
    by (unfold in_grid in *; rewrite Hw1, Hh1; exact Hin).
  assert (Hin2' : in_grid b2' i j)
    by (unfold in_grid in *; rewrite Hw2, Hh2; exact Hin2).
  rewrite (get_item_cell b1' i j Hs1 Hin1'), (get_item_cell b2' i j Hs2 Hin2').
  unfold cell. rewrite (Hc1 i j Hin), (Hc2 i j Hin2). simpl. do 2 f_equal.
  - pose proof (cell_agree b1 b2 (i + 0) (j + 0) H1 H2 Hdims) as E.
    rewrite !Z.add_0_r in E. apply E. intros Hx.
    pose proof (Hagree 0 0) as A. rewrite !Z.add_0_r in A. apply A; lia || exact Hx.
  - unfold neighbor_sum.
    rewrite !(cell_agree b1 b2 _ _ H1 H2 Hdims); [reflexivity|..];
      intros Hx; apply Hagree; lia || exact Hx.
Qed.

Lemma next_state_is_local_witness :
  exists b1' b2',
    next_state blinker5 = Ok b1' /\
    next_state (mkBoard 5 5
      [[0; 0; 0; 0; 0]; [0; 0; 0; 0; 0]; [0; 1; 1; 1; 0];
       [0; 0; 0; 0; 0]; [1; 1; 1; 1; 1]]) = Ok b2' /\
    get_item b1' 1 2 = get_item b2' 1 2.
Proof.
  apply (next_state_is_local blinker5 _ 1 2).
  - exact blinker5_shape.
  - split; [reflexivity|repeat constructor].
  - split; reflexivity.
  - unfold in_grid. simpl. lia.
  - intros d e Hd He _.
    assert (Hd' : d = -1 \/ d = 0 \/ d = 1) by lia.
    assert (He' : e = -1 \/ e = 0 \/ e = 1) by lia.
    destruct Hd' as [-> | [-> | ->]]; destruct He' as [-> | [-> | ->]];
      reflexivity.
Defined.

(** X9. On a board whose grid has [_height] rows of [_width] cells,
    [randomize_board] succeeds, keeps the dimensions, and overwrites every
    cell in row-major order with consecutive draws of the generator: the cell
    at [(i, j)] receives the draw number [i * _width + j] counted from the
    position of the generator at the call.  The generator is advanced by
    [_height * _width] draws, and what the grid held before does not
    matter. *)
Theorem randomize_board_row_major (b : Board) (g : Random) :
  Board_shape b ->
  exists b' g',
    randomize_board b g = Ok (b', g') /\
    same_dims b b' /\ Board_shape b' /\
    draws g' = draws g /\
    used g' = (used g + Z.to_nat (_height b * _width b))%nat /\
    forall i j, in_grid b i j ->
      get_item b' i j =
      Ok (fst (randint
                 (mkRandom (draws g) (used g + Z.to_nat (i * _width b + j)))
                 0 1)).
Proof.
  intros Hb. unfold randomize_board.
  destruct (Board_shape_dims b Hb) as [Hh Hw].
  set (w := _width b) in *. set (h := _height b) in *.
  pose (val := fun i j : Z =>
    fst (randint (mkRandom (draws g) (used g + Z.to_nat (i * w + j))) 0 1)).
  pose (Base := fun s : Board * Random =>
    same_dims b (fst s) /\ Board_shape (fst s) /\ draws (snd s) = draws g).
  pose (Rows := fun (i : Z) (s : Board * Random) =>
    forall i' j', 0 <= i' < i -> 0 <= j' < w ->
      lookup2 (_state (fst s)) i' j' = Some (val i' j')).
  destruct (for_in_range
    (fun i s =>
       for_in (range (_width (fst s))) (fun j s =>
         let (v, g') := randint (snd s) 0 1 in
         let* b0 := state_assign (fst s) i j v in Ok (b0, g')) s)
    (fun i s => Base s /\ used (snd s) = (used g + Z.to_nat (i * w))%nat /\
                Rows i s) h (b, g) Hh)
    as (s' & Hs' & (Hdims & Hshape & Hdraws) & Hused & Hrows).
  - split; [split; [split; reflexivity|split; [exact Hb|reflexivity]]|].
    split; [simpl; lia|]. intros i' j' Hi'. lia.
  - intros i s Hi ((Hsd & Hss & Hsg) & Hsu & Hsr).
    assert (Hw0 : 0 <= w) by (apply Hw; lia).
    assert (Hsw : _width (fst s) = w) by (destruct Hsd; assumption).
    rewrite Hsw.
    destruct (for_in_range
      (fun j s =>
         let (v, g') := randint (snd s) 0 1 in
         let* b0 := state_assign (fst s) i j v in Ok (b0, g'))
      (fun j t => Base t /\
         used (snd t) = (used g + Z.to_nat (i * w + j))%nat /\
         Rows i t /\
         forall j', 0 <= j' < j ->
           lookup2 (_state (fst t)) i j' = Some (val i j')) w s Hw0)
      as (t & Ht & HBt & Htu & Htr & Htrow).
    + split; [split; [exact Hsd|split; [exact Hss|exact Hsg]]|].
      split; [rewrite Z.add_0_r; exact Hsu|]. split; [exact Hsr|].
      intros j' Hj'. lia.
    + intros j t Hj ((Htd & Hts & Htg) & Htu & Htr & Htrow).
      assert (Hv : randint (snd t) 0 1 =
                   (val i j, mkRandom (draws g) (S (used (snd t))))).
      { unfold val, randint. cbn [draws used]. rewrite Htg, Htu. reflexivity. }
      rewrite Hv.
      assert (Hin : in_grid (fst t) i j).
      { destruct Htd as [Htw Hth]. unfold in_grid. rewrite Htw, Hth.
        fold w h. lia. }
      rewrite (state_assign_inside (fst t) i j (val i j) Hts Hin).
      cbn [bind]. eexists. split; [reflexivity|]. cbn [fst snd].
      assert (Hts' : grid_shape h w (_state (fst t))).
      { destruct Htd as [Htw Hth]. unfold Board_shape in Hts.
        rewrite Htw, Hth in Hts. exact Hts. }
      split; [split; [exact Htd|split; [|reflexivity]]|].
      { apply with_state_update_shape; exact Hts. }
      split.
      { cbn [used]. rewrite Htu.
        assert (0 <= i * w) by nia. lia. }
      split.
      * intros i' j' Hi' Hj'. cbn [fst snd _state with_state].
        rewrite lookup2_update_ne by lia. apply Htr; assumption.
      * intros j' Hj'. cbn [fst snd _state with_state].
        destruct (Z.eq_dec j' j) as [->|Hne].
        -- apply (lookup2_update_eq _ h w); [exact Hts'|lia|lia].
        -- rewrite lookup2_update_ne by lia. apply Htrow. lia.
    + exists t. split; [exact Ht|]. split; [exact HBt|]. split.
      * rewrite Htu. f_equal. f_equal. lia.
      * intros i' j' Hi' Hj'. destruct (Z.eq_dec i' i) as [->|Hne].
        -- apply Htrow. exact Hj'.
        -- apply Htr; [lia|exact Hj'].
  - destruct s' as [b' g']. cbn [fst snd] in *. exists b', g'.
    split; [exact Hs'|]. split; [exact Hdims|]. split; [exact Hshape|].
    split; [exact Hdraws|]. split; [exact Hused|].
    intros i j Hin.
    assert (Hin' : in_grid b' i j)
      by (destruct Hdims as [Hw' Hh']; unfold in_grid in *; rewrite Hw', Hh'; exact Hin).
    rewrite (get_item_cell b' i j Hshape Hin'). unfold cell.
    destruct Hin as [Hi Hj]. pose proof (Hrows i j Hi Hj) as E.
    cbn [fst] in E. rewrite E. reflexivity.
Qed.

Lemma randomize_board_row_major_witness :
  exists b' g',
    randomize_board dead3x2 (mkRandom (fun k => k) 4) = Ok (b', g') /\
    same_dims dead3x2 b' /\ Board_shape b' /\
    draws g' = (fun k => k) /\
    used g' = (4 + Z.to_nat (_height dead3x2 * _width dead3x2))%nat /\
    forall i j, in_grid dead3x2 i j ->
      get_item b' i j =
      Ok (fst (randint
                 (mkRandom (fun k => k)
                    (4 + Z.to_nat (i * _width dead3x2 + j)))
                 0 1)).
Proof.
  apply (randomize_board_row_major dead3x2 (mkRandom (fun k => k) 4)).
  exact (proj1 dead3x2_inv).
Defined.

(** ** Patterns at any position *)

Lemma shows_unique (b b' : Board) (alive : list (Z * Z)) :
  Board_shape b -> Board_shape b' -> same_dims b b' ->
  shows b alive -> shows b' alive -> b' = b.
Proof.
  intros Hb Hb' Hdims Hs Hs'. apply board_ext; try assumption.
  intros i j Hin.
  assert (Hin' : in_grid b' i j)
    by (destruct Hdims as [Hw Hh]; unfold in_grid in *; rewrite Hw, Hh; exact Hin).
  rewrite (lookup2_cell b' i j Hb' Hin'), (lookup2_cell b i j Hb Hin).
  pose proof (Hs i j Hin) as E. pose proof (Hs' i j Hin') as E'.
  rewrite (get_item_cell b i j Hb Hin) in E.
  rewrite (get_item_cell b' i j Hb' Hin') in E'. congruence.
Qed.

Ltac pattern_step b alive H :=
  rewrite (neighbor_sum_pattern b alive) by exact H;
  rewrite H; unfold pattern_cell, mem, block, row_triplet, column_triplet;
  cbn [existsb fst snd];
  decide_eqbs; reflexivity.

Ltac pattern_in_grid :=
  unfold mem, block, row_triplet, column_triplet, in_grid in *;
  cbn [existsb fst snd];
  decide_eqbs; intros H; try discriminate H; lia.

(** X10. A two-by-two block is a still life wherever it lies, also against
    an edge or in a corner: on a board with [_height] rows of [_width]
    cells whose only Alive cells are the four cells of a block inside the
    grid, [next_state] gives back the same board. *)
Theorem block_is_still_life (b : Board) (r c : Z) :
  Board_shape b -> in_grid b r c -> in_grid b (r + 1) (c + 1) ->
  shows b (block r c) ->
  next_state b = Ok b.
Proof.
  intros Hb H00 H11 Hshow.
  assert (Hsub : forall i j, mem (i, j) (block r c) = true -> in_grid b i j).
  { intros i j. pattern_in_grid. }
  destruct (shows_next_state b (block r c) (block r c) Hb Hshow Hsub)
    as (b' & Hn & Hb' & Hw & Hh & Hshow').
  { intros i j.
    pose proof (cell_of_shows b (block r c) Hb Hshow Hsub) as Hcell.
    pattern_step b (block r c) Hcell. }
  rewrite Hn. f_equal.
  apply (shows_unique b b' (block r c)); try assumption. split; assumption.
Qed.

Lemma block_is_still_life_witness :
  next_state (mkBoard 3 2 [[0; 1; 1]; [0; 1; 1]])
  = Ok (mkBoard 3 2 [[0; 1; 1]; [0; 1; 1]]).
Proof.
  apply (block_is_still_life (mkBoard 3 2 [[0; 1; 1]; [0; 1; 1]]) 0 1).
  - split; [reflexivity|repeat constructor].
  - unfold in_grid. simpl. lia.
  - unfold in_grid. simpl. lia.
  - intros i j [Hi Hj]. simpl in Hi, Hj.
    assert (Hi' : i = 0 \/ i = 1) by lia.
    assert (Hj' : j = 0 \/ j = 1 \/ j = 2) by lia.
    destruct Hi' as [-> | ->]; destruct Hj' as [-> | [-> | ->]]; reflexivity.
Defined.

(** X11. A lone cell dies: on a board with [_height] rows of [_width] cells
    whose only Alive cell is one cell of the grid, wherever it lies,
    [next_state] gives a board of the same dimensions with every cell
    Dead. *)
Theorem lone_cell_dies (b : Board) (r c : Z) :
  Board_shape b -> in_grid b r c -> shows b [(r, c)] ->
  exists b', next_state b = Ok b' /\ same_dims b b' /\ shows b' [].
Proof.
  intros Hb Hin Hshow.
  assert (Hsub : forall i j, mem (i, j) [(r, c)] = true -> in_grid b i j).
  { intros i j. pattern_in_grid. }
  destruct (shows_next_state b [(r, c)] [] Hb Hshow Hsub)
    as (b' & Hn & Hb' & Hw & Hh & Hshow').
  { intros i j.
    pose proof (cell_of_shows b [(r, c)] Hb Hshow Hsub) as Hcell.
    pattern_step b [(r, c)] Hcell. }
  exists b'. split; [exact Hn|]. split; [split; assumption|exact Hshow'].
Qed.

Lemma lone_cell_dies_witness :
  exists b',
    next_state (mkBoard 2 2 [[0; 0]; [0; 1]]) = Ok b' /\
    same_dims (mkBoard 2 2 [[0; 0]; [0; 1]]) b' /\ shows b' [].
Proof.
  apply (lone_cell_dies (mkBoard 2 2 [[0; 0]; [0; 1]]) 1 1).
  - split; [reflexivity|repeat constructor].
  - unfold in_grid. simpl. lia.
  - intros i j [Hi Hj]. simpl in Hi, Hj.
    assert (Hi' : i = 0 \/ i = 1) by lia.
    assert (Hj' : j = 0 \/ j = 1) by lia.
    destruct Hi' as [-> | ->]; destruct Hj' as [-> | ->]; reflexivity.
Defined.

(** X12. The blinker oscillates wherever it fits: on a board with [_height]
    rows of [_width] cells whose only Alive cells are the horizontal triplet
    centred at a position whose eight Moore-neighborhood positions all lie
    within the grid, one [next_state] gives a board of the same dimensions,
    with [_height] rows of [_width] cells, on which exactly the vertical
    triplet centred there is Alive, and a second one gives back the board
    it started from. *)
Theorem blinker_oscillates_anywhere (b : Board) (r c : Z) :
  Board_shape b -> in_grid b (r - 1) (c - 1) -> in_grid b (r + 1) (c + 1) ->
  shows b (row_triplet r c) ->
  exists b1,
    next_state b = Ok b1 /\
    same_dims b b1 /\ Board_shape b1 /\ shows b1 (column_triplet r c) /\
    next_state b1 = Ok b.
Proof.
  intros Hb Hlo Hhi Hshow.
  assert (Hsub : forall i j, mem (i, j) (row_triplet r c) = true -> in_grid b i j).
  { intros i j. pattern_in_grid. }
  destruct (shows_next_state b (row_triplet r c) (column_triplet r c)
              Hb Hshow Hsub) as (b1 & Hn1 & Hb1 & Hw1 & Hh1 & Hshow1).
  { intros i j.
    pose proof (cell_of_shows b (row_triplet r c) Hb Hshow Hsub) as Hcell.
    pattern_step b (row_triplet r c) Hcell. }
  assert (Hsub1 : forall i j,
            mem (i, j) (column_triplet r c) = true -> in_grid b1 i j).
  { intros i j. unfold in_grid. rewrite Hw1, Hh1. pattern_in_grid. }
  destruct (shows_next_state b1 (column_triplet r c) (row_triplet r c)
              Hb1 Hshow1 Hsub1) as (b2 & Hn2 & Hb2 & Hw2 & Hh2 & Hshow2).
  { intros i j.
    pose proof (cell_of_shows b1 (column_triplet r c) Hb1 Hshow1 Hsub1) as Hcell.
    pattern_step b1 (column_triplet r c) Hcell. }
  exists b1. split; [exact Hn1|]. split; [split; assumption|].
  split; [exact Hb1|]. split; [exact Hshow1|].
  rewrite Hn2. f_equal.
  apply (shows_unique b b2 (row_triplet r c)); try assumption.
  split; congruence.
Qed.

Lemma blinker_oscillates_anywhere_witness :
  exists b1,
    next_state (mkBoard 3 3 [[0; 0; 0]; [1; 1; 1]; [0; 0; 0]]) = Ok b1 /\
    same_dims (mkBoard 3 3 [[0; 0; 0]; [1; 1; 1]; [0; 0; 0]]) b1 /\
    Board_shape b1 /\ shows b1 (column_triplet 1 1) /\
    next_state b1 = Ok (mkBoard 3 3 [[0; 0; 0]; [1; 1; 1]; [0; 0; 0]]).
Proof.
  apply (blinker_oscillates_anywhere
           (mkBoard 3 3 [[0; 0; 0]; [1; 1; 1]; [0; 0; 0]]) 1 1).
  - split; [reflexivity|repeat constructor].
  - unfold in_grid. simpl. lia.
  - unfold in_grid. simpl. lia.
  - intros i j [Hi Hj]. simpl in Hi, Hj.
    assert (Hi' : i = 0 \/ i = 1 \/ i = 2) by lia.
    assert (Hj' : j = 0 \/ j = 1 \/ j = 2) by lia.
    destruct Hi' as [-> | [-> | ->]]; destruct Hj' as [-> | [-> | ->]];
      reflexivity.
Defined.

(** X13. The edges are hard: a horizontal triplet lying on the top row of a
    board with at least two rows does not oscillate.  The cell that a
    blinker would turn Alive above the grid does not exist and nothing
    wraps to the bottom row: one [next_state] gives a board of the same
    dimensions, with [_height] rows of [_width] cells, on which exactly the
    centre of the triplet and the cell below it are Alive, and a second one
    gives such a board on which every cell is Dead. *)
Theorem top_row_triplet_dies (b : Board) (c : Z) :
  Board_shape b -> in_grid b 0 (c - 1) -> in_grid b 1 (c + 1) ->
  shows b (row_triplet 0 c) ->
  exists b1 b2,
    next_state b = Ok b1 /\
    same_dims b b1 /\ Board_shape b1 /\ shows b1 [(0, c); (1, c)] /\
    next_state b1 = Ok b2 /\
    same_dims b b2 /\ Board_shape b2 /\ shows b2 [].
Proof.
  intros Hb Hlo Hhi Hshow.
  assert (Hsub : forall i j, mem (i, j) (row_triplet 0 c) = true -> in_grid b i j).
  { intros i j. pattern_in_grid. }
  pose proof (cell_of_shows b (row_triplet 0 c) Hb Hshow Hsub) as Hcell.
  destruct (next_state_cells b Hb) as (b1 & Hn1 & Hw1 & Hh1 & Hb1 & Hcells1).
  assert (Hshow1 : shows b1 [(0, c); (1, c)]).
  { intros i j Hin1.
    assert (Hin : in_grid b i j)
      by (unfold in_grid in *; rewrite <- Hw1, <- Hh1; exact Hin1).
    rewrite (get_item_cell b1 i j Hb1 Hin1). unfold cell.
    rewrite (Hcells1 i j Hin). simpl default. f_equal.
    rewrite (neighbor_sum_pattern b (row_triplet 0 c)) by exact Hcell.
    rewrite Hcell. destruct Hin as [Hi Hj].
    unfold pattern_cell, mem, row_triplet. cbn [existsb fst snd].
    decide_eqbs; reflexivity. }
  assert (Hsub1 : forall i j,
            mem (i, j) [(0, c); (1, c)] = true -> in_grid b1 i j).
  { intros i j. unfold in_grid. rewrite Hw1, Hh1. pattern_in_grid. }
  destruct (shows_next_state b1 [(0, c); (1, c)] [] Hb1 Hshow1 Hsub1)
    as (b2 & Hn2 & Hb2 & Hw2 & Hh2 & Hshow2).
  { intros i j.
    pose proof (cell_of_shows b1 [(0, c); (1, c)] Hb1 Hshow1 Hsub1) as Hcell1.
    pattern_step b1 [(0, c); (1, c)] Hcell1. }
  exists b1, b2. split; [exact Hn1|]. split; [split; assumption|].
  split; [exact Hb1|]. split; [exact Hshow1|]. split; [exact Hn2|].
  split; [split; congruence|]. split; [exact Hb2|exact Hshow2].
Qed.

Lemma top_row_triplet_dies_witness :
  exists b1 b2,
    next_state (mkBoard 3 2 [[1; 1; 1]; [0; 0; 0]]) = Ok b1 /\
    same_dims (mkBoard 3 2 [[1; 1; 1]; [0; 0; 0]]) b1 /\
    Board_shape b1 /\ shows b1 [(0, 1); (1, 1)] /\
    next_state b1 = Ok b2 /\
    same_dims (mkBoard 3 2 [[1; 1; 1]; [0; 0; 0]]) b2 /\
    Board_shape b2 /\ shows b2 [].
Proof.
  apply (top_row_triplet_dies (mkBoard 3 2 [[1; 1; 1]; [0; 0; 0]]) 1).
  - split; [reflexivity|repeat constructor].
  - unfold in_grid. simpl. lia.
  - unfold in_grid. simpl. lia.
  - intros i j [Hi Hj]. simpl in Hi, Hj.
    assert (Hi' : i = 0 \/ i = 1) by lia.
    assert (Hj' : j = 0 \/ j = 1 \/ j = 2) by lia.
    destruct Hi' as [-> | ->]; destruct Hj' as [-> | [-> | ->]]; reflexivity.
Defined.

(** ** The canvas mirrors the board *)

Lemma randomize_board_shape (b : Board) (g : Random) :
  Board_shape b ->
  exists b' g', randomize_board b g = Ok (b', g') /\
    same_dims b b' /\ Board_shape b'.
Proof.
  intros Hb. unfold randomize_board.
  destruct (Board_shape_dims b Hb) as [Hh Hw].
  pose (Inv := fun s : Board * Random =>
    same_dims b (fst s) /\ Board_shape (fst s)).
  destruct (for_in_range
    (fun i s =>
       for_in (range (_width (fst s))) (fun j s =>
         let (v, g') := randint (snd s) 0 1 in
         let* b0 := state_assign (fst s) i j v in Ok (b0, g')) s)
    (fun _ s => Inv s) (_height b) (b, g) Hh) as (s' & Hs' & Hdims & Hinv).
  - split; [split; reflexivity|exact Hb].
  - intros i s Hi [[Hsw Hsh] Hs].
    assert (Hw' : 0 <= _width (fst s)) by (rewrite Hsw; apply Hw; lia).
    destruct (for_in_range
      (fun j s =>
         let (v, g') := randint (snd s) 0 1 in
         let* b0 := state_assign (fst s) i j v in Ok (b0, g'))
      (fun _ t => Inv t) (_width (fst s)) s Hw') as (t & Ht & HIt).
    + split; [split; assumption|exact Hs].
    + intros j t Hj [[Htw Hth] Hts].
      destruct (randint (snd t) 0 1) as [v g'].
      rewrite state_assign_inside
        by (try exact Hts; unfold in_grid; rewrite Htw, Hth; lia).
      cbn [bind]. eexists. split; [reflexivity|].
      split; [split; assumption|].
      apply with_state_update_shape; exact Hts.
    + exists t. split; [exact Ht|exact HIt].
  - destruct s' as [b' g']. exists b', g'. split; [exact Hs'|].
    split; [exact Hdims|exact Hinv].
Qed.

Lemma brush_at_lookup2 (c : Canvas) (i j : Z) (x : Cell) :
  lookup2 (gui_board c) i j = Some (Some x) -> brush_at c i j = Some (brush x).
Proof. intros H. unfold brush_at. rewrite H. reflexivity. Qed.

(** The loop of [randomize_game] that recolours every visual cell after
    the board. *)
Lemma gui_sync (c : Canvas) :
  Canvas_ok c ->
  exists c',
    for_in (range (height c)) (fun i self =>
      for_in (range (width self)) (fun j self =>
        let* v := get_item (board self) i j in
        let* gui :=
          call_cell (gui_board self) i j
            (if v =? 1 then generate_cell else kill_cell) in
        Ok (mkCanvas (width self) (height self) (board self) gui)) self) c
    = Ok c' /\
    Canvas_ok c' /\ mirrors c' /\ board c' = board c /\
    width c' = width c /\ height c' = height c.
Proof.
  intros (Hw & Hh & Hb & Hgui & Hcells).
  pose (paint := fun i j : Z =>
    if cell (board c) i j =? 1 then ALIVE_COLOR else DEAD_COLOR).
  destruct (fill_grid_with (height c) (width c) gui_board
    (fun s => width s = width c /\ height s = height c /\
              board s = board c /\
              forall i j, 0 <= i < height c -> 0 <= j < width c ->
                exists x0 br,
                  lookup2 (gui_board c) i j = Some (Some x0) /\
                  lookup2 (gui_board s) i j
                  = Some (Some (mkCell (row x0) (col x0) br)))
    (fun i j =>
       match gui_cell (gui_board c) i j with
       | Some x0 => Some (mkCell (row x0) (col x0) (paint i j))
       | None => None
       end)
    (fun i j self =>
       let* v := get_item (board self) i j in
       let* gui :=
         call_cell (gui_board self) i j
           (if v =? 1 then generate_cell else kill_cell) in
       Ok (mkCanvas (width self) (height self) (board self) gui)))
    with (s := c)
         (outer := fun i self =>
            for_in (range (width self)) (fun j self =>
              let* v := get_item (board self) i j in
              let* gui :=
                call_cell (gui_board self) i j
                  (if v =? 1 then generate_cell else kill_cell) in
              Ok (mkCanvas (width self) (height self) (board self) gui)) self)
    as (c' & Hc' & (Hw' & Hh' & Hb' & Hkeep) & Hshape & Hfilled).
  - intros i j s Hi Hj (Hsw & Hsh & Hsb & Hsc) Hsg.
    destruct (Hsc i j Hi Hj) as (x0 & br & Hx0 & Hx).
    assert (Hin : in_grid (board c) i j)
      by (unfold in_grid; rewrite <- Hw, <- Hh; split; assumption).
    rewrite Hsb, (get_item_cell (board c) i j Hb Hin). cbn [bind].
    rewrite (call_cell_inside _ _ _ i j _ _ Hsg Hi Hj Hx). cbn [bind].
    eexists. split; [reflexivity|]. cbn [width height board gui_board].
    assert (Hnew :
      (if cell (board c) i j =? 1 then generate_cell else kill_cell)
        (mkCell (row x0) (col x0) br)
      = mkCell (row x0) (col x0) (paint i j)).
    { unfold paint. destruct (cell (board c) i j =? 1); reflexivity. }
    rewrite Hnew. split.
    + split; [exact Hsw|]. split; [exact Hsh|]. split; [reflexivity|].
      intros i' j' Hi' Hj'.
      destruct (Z.eq_dec i' i) as [->|Hne];
        [destruct (Z.eq_dec j' j) as [->|Hne]|].
      * exists x0, (paint i j). split; [exact Hx0|].
        apply (lookup2_update_eq _ _ _ i j _ Hsg Hi Hj).
      * rewrite lookup2_update_ne by lia. apply Hsc; assumption.
      * rewrite lookup2_update_ne by lia. apply Hsc; assumption.
    + unfold gui_cell. rewrite Hx0. reflexivity.
  - intros i t _ (Htw & _). rewrite Htw. reflexivity.
  - split; [reflexivity|]. split; [reflexivity|]. split; [reflexivity|].
    intros i j Hi Hj. destruct (Hcells i j Hi Hj) as [x Hx].
    exists x, (brush x). split; [exact Hx|]. rewrite Hx. destruct x; reflexivity.
  - exact Hgui.
  - exists c'. split; [exact Hc'|].
    assert (Hok' : Canvas_ok c').
    { unfold Canvas_ok. rewrite Hw', Hh', Hb'.
      split; [exact Hw|]. split; [exact Hh|]. split; [exact Hb|].
      split; [exact Hshape|].
      intros i j Hi Hj. destruct (Hkeep i j Hi Hj) as (x0 & br & _ & Hx).
      eexists. exact Hx. }
    split; [exact Hok'|]. split; [|auto].
    intros i j Hin. rewrite Hb' in Hin |- *.
    exists (cell (board c) i j). split; [apply get_item_cell; assumption|].
    assert (Hi : 0 <= i < height c) by (rewrite Hh; apply Hin).
    assert (Hj : 0 <= j < width c) by (rewrite Hw; apply Hin).
    pose proof (Hfilled i j Hi Hj) as Hf. unfold stores in Hf.
    destruct (Hcells i j Hi Hj) as [x Hx].
    unfold gui_cell in Hf. rewrite Hx in Hf.
    rewrite (brush_at_lookup2 c' i j _ Hf). reflexivity.
Qed.

Lemma for_in_range_idle {S : Type} (body : Z -> S -> result S) (n : Z) (s : S) :
  (forall k, 0 <= k < n -> body k s = Ok s) ->
  for_in (range n) body s = Ok s.
Proof.
  intros Hidle. destruct (Z_le_dec 0 n) as [Hn|Hn].
  - destruct (for_in_range body (fun _ t => t = s) n s Hn eq_refl)
      as (s' & Hs' & ->); [|exact Hs'].
    intros k t Hk ->. exists s. split; [apply Hidle; exact Hk|reflexivity].
  - apply for_in_range_empty. lia.
Qed.

Lemma Canvas_init_total (w h : Z) :
  exists gui,
    for_in (range h) (fun i gui =>
      for_in (range w) (fun j gui =>
        let* c := Cell__init__ i j 0 in
        setitem2 gui i j (Some c)) gui)
      (map (fun _ : Z => repeat_list (@None Cell) w) (range h)) = Ok gui /\
    ((0 <= h -> 0 <= w -> grid_shape h w gui) /\
     forall i j, 0 <= i < h -> 0 <= j < w ->
       lookup2 gui i j = Some (Some (mkCell i j DEAD_COLOR))).
Proof.
  destruct (Z_le_dec 0 w) as [Hw|Hw].
  - destruct (Z_le_dec 0 h) as [Hh|Hh].
    + destruct (fill_grid h w (fun g : list (list (option Cell)) => g)
                  (fun _ => True) (fun i j => Some (mkCell i j DEAD_COLOR))
                  (fun i j gui => let* c := Cell__init__ i j 0 in
                                  setitem2 gui i j (Some c)))
        with (s := map (fun _ : Z => repeat_list (@None Cell) w) (range h))
        as (gui & Hgui & _ & Hshape & Hcells).
      * intros i j g Hi Hj _ Hg. eexists.
        change (Cell__init__ i j 0) with (Ok (mkCell i j DEAD_COLOR)).
        cbn [bind]. rewrite (setitem2_inside g _ _ i j _ Hg Hi Hj). auto.
      * exact I.
      * apply fresh_grid_shape; lia.
      * exists gui. split; [exact Hgui|]. split; [intros _ _; exact Hshape|].
        exact Hcells.
    + eexists. split; [apply for_in_range_empty; lia|].
      split; [intros; lia|intros; lia].
  - eexists. split.
    + apply for_in_range_idle. intros k _. apply for_in_range_empty. lia.
    + split; [intros; lia|intros; lia].
Qed.

(** X14. [Canvas(width, height)] never raises, whatever the two pixel
    extents: the canvas has [width // CELL_SIZE] columns and
    [height // CELL_SIZE] rows.  When neither extent is negative, the canvas
    and its board agree on the dimensions, every cell of the board reads
    Dead, the visual cell at [(i, j)] is the cell created for row [i] and
    column [j] with the dead brush, and so the visual grid shows the
    board. *)
Theorem Canvas_init_mirrors (pw ph : Z) :
  exists c,
    Canvas__init__ pw ph = Ok c /\
    width c = pw / CELL_SIZE /\ height c = ph / CELL_SIZE /\
    (0 <= pw -> 0 <= ph ->
     Canvas_ok c /\ mirrors c /\
     forall i j, in_grid (board c) i j ->
       get_item (board c) i j = Ok Dead /\
       gui_cell (gui_board c) i j = Some (mkCell i j DEAD_COLOR)).
Proof.
  unfold Canvas__init__, __init__. cbn [bind].
  destruct (Canvas_init_total (pw / CELL_SIZE) (ph / CELL_SIZE))
    as (gui & Hgui & Hshape & Hcells).
  rewrite Hgui. cbn [bind]. eexists. split; [reflexivity|].
  cbn [width height board gui_board].
  split; [reflexivity|]. split; [reflexivity|].
  intros Hpw Hph.
  assert (Hw : 0 <= pw / CELL_SIZE) by (apply Z.div_pos; unfold CELL_SIZE; lia).
  assert (Hh : 0 <= ph / CELL_SIZE) by (apply Z.div_pos; unfold CELL_SIZE; lia).
  clear Hgui.
  set (w := pw / CELL_SIZE) in *. set (h := ph / CELL_SIZE) in *.
  clearbody w h.
  assert (Hb : Board_shape (mkBoard w h (map (fun _ => repeat_list 0 w) (range h))))
    by (apply fresh_grid_shape; lia).
  assert (Hdead : forall i j, in_grid (mkBoard w h (map (fun _ => repeat_list 0 w) (range h))) i j ->
            get_item (mkBoard w h (map (fun _ => repeat_list 0 w) (range h))) i j = Ok Dead).
  { intros i j Hin. rewrite (get_item_cell _ i j Hb Hin). unfold cell.
    destruct Hin as [Hi Hj]. cbn [_state _width _height] in *.
    rewrite fresh_grid_lookup2 by assumption. reflexivity. }
  split; [|split].
  - split; [reflexivity|]. split; [reflexivity|]. split; [exact Hb|].
    split; [apply Hshape; assumption|].
    intros i j Hi Hj. eexists. apply Hcells; assumption.
  - intros i j Hin. exists Dead. split; [apply Hdead; exact Hin|].
    unfold brush_at. cbn [gui_board]. destruct Hin as [Hi Hj].
    cbn [_width _height] in Hi, Hj. rewrite (Hcells i j Hi Hj). reflexivity.
  - intros i j Hin. split; [apply Hdead; exact Hin|].
    unfold gui_cell. destruct Hin as [Hi Hj].
    cbn [_width _height] in Hi, Hj. rewrite (Hcells i j Hi Hj). reflexivity.
Qed.

Lemma Canvas_init_mirrors_witness :
  exists c,
    Canvas__init__ 13 20 = Ok c /\
    width c = 13 / CELL_SIZE /\ height c = 20 / CELL_SIZE /\
    Canvas_ok c /\ mirrors c /\
    forall i j, in_grid (board c) i j ->
      get_item (board c) i j = Ok Dead /\
      gui_cell (gui_board c) i j = Some (mkCell i j DEAD_COLOR).
Proof.
  destruct (Canvas_init_mirrors 13 20) as (c & Hc & Hw & Hh & H).
  exists c. split; [exact Hc|]. split; [exact Hw|]. split; [exact Hh|].
  apply H; lia.
Defined.

Lemma reset_game_gui (c : Canvas) :
  Canvas_ok c ->
  exists c', reset_game c = Ok c' /\
    forall i j, 0 <= i < height c -> 0 <= j < width c ->
      exists x0, lookup2 (gui_board c) i j = Some (Some x0) /\
        lookup2 (gui_board c') i j = Some (Some (kill_cell x0)).
Proof.
  intros (Hw & Hh & Hb & Hgui & Hcells). unfold reset_game.
  destruct (fill_grid_with (height c) (width c) gui_board
    (fun s => width s = width c /\ height s = height c /\
              _width (board s) = width c /\ _height (board s) = height c /\
              Board_shape (board s) /\
              forall i j, 0 <= i < height c -> 0 <= j < width c ->
                exists x0 br,
                  lookup2 (gui_board c) i j = Some (Some x0) /\
                  lookup2 (gui_board s) i j
                  = Some (Some (mkCell (row x0) (col x0) br)))
    (fun i j =>
       match gui_cell (gui_board c) i j with
       | Some x0 => Some (kill_cell x0)
       | None => None
       end)
    (fun i j s =>
       let* gui := call_cell (gui_board s) i j kill_cell in
       let* b := set_item (board s) i j 0 in
       Ok (mkCanvas (width s) (height s) b gui)))
    with (s := c)
         (outer := fun i self =>
            for_in (range (width self)) (fun j self =>
              let* gui := call_cell (gui_board self) i j kill_cell in
              let* b := set_item (board self) i j 0 in
              Ok (mkCanvas (width self) (height self) b gui)) self)
    as (c' & Hc' & _ & _ & Hfilled).
  - intros i j s Hi Hj (Hsw & Hsh & Hbw & Hbh & Hsb & Hsc) Hsg.
    destruct (Hsc i j Hi Hj) as (x0 & br & Hx0 & Hx).
    rewrite (call_cell_inside _ _ _ i j _ _ Hsg Hi Hj Hx). cbn [bind].
    assert (Hin : in_grid (board s) i j)
      by (unfold in_grid; rewrite Hbw, Hbh; split; assumption).
    rewrite (set_item_inside (board s) i j 0 Hsb Hin). cbn [bind].
    eexists. split; [reflexivity|]. cbn [width height board gui_board].
    split.
    + split; [exact Hsw|]. split; [exact Hsh|].
      split; [exact Hbw|]. split; [exact Hbh|].
      split; [apply with_state_update_shape; exact Hsb|].
      intros i' j' Hi' Hj'.
      destruct (Z.eq_dec i' i) as [->|Hne];
        [destruct (Z.eq_dec j' j) as [->|Hne]|].
      * exists x0, DEAD_COLOR. split; [exact Hx0|].
        apply (lookup2_update_eq _ _ _ i j _ Hsg Hi Hj).
      * rewrite lookup2_update_ne by lia. apply Hsc; assumption.
      * rewrite lookup2_update_ne by lia. apply Hsc; assumption.
    + unfold gui_cell. rewrite Hx0. reflexivity.
  - intros i t _ (Htw & _). rewrite Htw. reflexivity.
  - split; [reflexivity|]. split; [reflexivity|].
    split; [congruence|]. split; [congruence|]. split; [exact Hb|].
    intros i j Hi Hj. destruct (Hcells i j Hi Hj) as [x Hx].
    exists x, (brush x). split; [exact Hx|]. rewrite Hx. destruct x; reflexivity.
  - exact Hgui.
  - exists c'. split; [exact Hc'|].
    intros i j Hi Hj. destruct (Hcells i j Hi Hj) as [x Hx].
    exists x. split; [exact Hx|].
    pose proof (Hfilled i j Hi Hj) as Hf. unfold stores, gui_cell in Hf.
    rewrite Hx in Hf. exact Hf.
Qed.

(** X15. On a canvas that agrees with its board on the dimensions, whose
    board's grid has that shape and whose visual grid holds a cell at every
    position, [reset_game] succeeds and leaves such a canvas, of the same
    dimensions; every cell of the board then reads Dead, every visual cell
    has the dead brush and is otherwise the cell it was, and so the visual
    grid shows the board. *)
Theorem reset_game_mirrors (c : Canvas) :
  Canvas_ok c ->
  exists c',
    reset_game c = Ok c' /\ Canvas_ok c' /\ mirrors c' /\
    width c' = width c /\ height c' = height c /\
    forall i j, in_grid (board c') i j ->
      get_item (board c') i j = Ok Dead /\
      brush_at c' i j = Some DEAD_COLOR /\
      exists x0, gui_cell (gui_board c) i j = Some x0 /\
        gui_cell (gui_board c') i j = Some (kill_cell x0).
Proof.
  intros Hok.
  destruct (reset_game_cells c Hok) as (c' & Hreset & Hok' & Hw & Hh & Hzero).
  destruct (reset_game_gui c Hok) as (c'' & Hreset' & Hgui).
  assert (c'' = c') by congruence. subst c''.
  destruct Hok as (Hcw & Hch & _). pose proof Hok' as (Hcw' & Hch' & Hb' & _).
  assert (Hall : forall i j, in_grid (board c') i j ->
    get_item (board c') i j = Ok Dead /\
    brush_at c' i j = Some DEAD_COLOR /\
    exists x0, gui_cell (gui_board c) i j = Some x0 /\
      gui_cell (gui_board c') i j = Some (kill_cell x0)).
  { intros i j Hin.
    assert (Hi : 0 <= i < height c) by (rewrite <- Hh, Hch'; apply Hin).
    assert (Hj : 0 <= j < width c) by (rewrite <- Hw, Hcw'; apply Hin).
    destruct (Hgui i j Hi Hj) as (x0 & Hx0 & Hx).
    split; [|split].
    - rewrite (get_item_cell _ i j Hb' Hin). unfold cell.
      rewrite Hzero; [reflexivity|].
      unfold in_grid. rewrite <- Hcw, <- Hch. split; assumption.
    - rewrite (brush_at_lookup2 c' i j _ Hx). reflexivity.
    - exists x0. unfold gui_cell. rewrite Hx0, Hx. auto. }
  exists c'. split; [exact Hreset|]. split; [exact Hok'|].
  split; [|split; [exact Hw|split; [exact Hh|exact Hall]]].
  intros i j Hin. destruct (Hall i j Hin) as (Hd & Hbr & _).
  exists Dead. split; [exact Hd|exact Hbr].
Qed.

Lemma reset_game_mirrors_witness :
  exists c',
    reset_game canvas2x3 = Ok c' /\ Canvas_ok c' /\ mirrors c' /\
    width c' = width canvas2x3 /\ height c' = height canvas2x3 /\
    forall i j, in_grid (board c') i j ->
      get_item (board c') i j = Ok Dead /\
      brush_at c' i j = Some DEAD_COLOR /\
      exists x0, gui_cell (gui_board canvas2x3) i j = Some x0 /\
        gui_cell (gui_board c') i j = Some (kill_cell x0).
Proof. apply (reset_game_mirrors canvas2x3). exact canvas2x3_ok. Defined.

Lemma Canvas_ok_new_board (c : Canvas) (b : Board) :
  Canvas_ok c -> Board_shape b -> same_dims (board c) b ->
  Canvas_ok (mkCanvas (width c) (height c) b (gui_board c)).
Proof.
  intros (Hw & Hh & _ & Hgui & Hcells) Hb [Hbw Hbh].
  unfold Canvas_ok. cbn [width height board gui_board].
  split; [congruence|]. split; [congruence|]. split; [exact Hb|].
  split; [exact Hgui|exact Hcells].
Qed.

(** X16. On a canvas that agrees with its board on the dimensions, whose
    board's grid has that shape and whose visual grid holds a cell at every
    position, [randomize_game] succeeds; the board it leaves is the one that
    [randomize_board] gives from the same generator, the dimensions are as
    before, and the visual grid shows the new board. *)
Theorem randomize_game_mirrors (c : Canvas) (g : Random) :
  Canvas_ok c ->
  exists c' g',
    randomize_game c g = Ok (c', g') /\
    randomize_board (board c) g = Ok (board c', g') /\
    Canvas_ok c' /\ mirrors c' /\
    width c' = width c /\ height c' = height c.
Proof.
  intros Hok. unfold randomize_game.
  pose proof Hok as (_ & _ & Hb & _).
  destruct (randomize_board_shape (board c) g Hb)
    as (b' & g' & Hrand & Hdims & Hb').
  rewrite Hrand. cbn [bind fst snd].
  destruct (gui_sync (mkCanvas (width c) (height c) b' (gui_board c)))
    as (c' & Hsync & Hok' & Hmir & Hbc & Hwc & Hhc).
  { apply Canvas_ok_new_board; assumption. }
  cbn [width height board gui_board] in Hsync, Hbc, Hwc, Hhc.
  rewrite Hsync. cbn [bind]. exists c', g'.
  split; [reflexivity|]. split; [rewrite Hbc; reflexivity|].
  split; [exact Hok'|]. split; [exact Hmir|]. split; assumption.
Qed.

Lemma randomize_game_mirrors_witness :
  exists c' g',
    randomize_game canvas2x3 (mkRandom (fun k => k) 0) = Ok (c', g') /\
    randomize_board (board canvas2x3) (mkRandom (fun k => k) 0)
    = Ok (board c', g') /\
    Canvas_ok c' /\ mirrors c' /\
    width c' = width canvas2x3 /\ height c' = height canvas2x3.
Proof. apply (randomize_game_mirrors canvas2x3). exact canvas2x3_ok. Defined.


(** ** Mouse presses *)

Lemma norm_index_wraps (len : nat) (i : Z) :
  - Z.of_nat len <= i < Z.of_nat len ->
  norm_index len i = Some (Z.to_nat (i mod Z.of_nat len)).
Proof.
  intros Hi. unfold norm_index.
  destruct (Z.leb_spec 0 i); simpl.
  - destruct (Z.ltb_spec i (Z.of_nat len)); [|lia]. simpl.
    rewrite Z.mod_small by lia. reflexivity.
  - destruct (Z.ltb_spec i 0); [|lia].
    destruct (Z.leb_spec (- Z.of_nat len) i); [|lia]. simpl.
    do 2 f_equal.
    rewrite <- (Z.mod_add i 1 (Z.of_nat len)) by lia.
    rewrite Z.mod_small by lia. lia.
Qed.

Lemma norm_index_beyond (len : nat) (i : Z) :
  i < - Z.of_nat len \/ Z.of_nat len <= i -> norm_index len i = None.
Proof.
  intros Hi. unfold norm_index.
  destruct (Z.leb_spec 0 i); simpl.
  - destruct (Z.ltb_spec i (Z.of_nat len)); [lia|]. simpl.
    destruct (Z.ltb_spec i 0); [lia|]. reflexivity.
  - destruct (Z.ltb_spec i 0); [|lia].
    destruct (Z.leb_spec (- Z.of_nat len) i); [lia|]. reflexivity.
Qed.

Lemma mod_in_range (i n : Z) : - n <= i < n -> 0 <= i mod n < n.
Proof. intros Hi. apply Z.mod_pos_bound. lia. Qed.

Lemma getitem_wraps {A : Type} (l : list A) (i : Z) :
  - Z.of_nat (length l) <= i < Z.of_nat (length l) ->
  getitem l i = getitem l (i mod Z.of_nat (length l)).
Proof.
  intros Hi. unfold getitem. rewrite (norm_index_wraps _ i Hi).
  rewrite norm_index_inside by (apply mod_in_range; exact Hi). reflexivity.
Qed.

Lemma setitem_wraps {A : Type} (l : list A) (i : Z) (v : A) :
  - Z.of_nat (length l) <= i < Z.of_nat (length l) ->
  setitem l i v = setitem l (i mod Z.of_nat (length l)) v.
Proof.
  intros Hi. unfold setitem. rewrite (norm_index_wraps _ i Hi).
  rewrite norm_index_inside by (apply mod_in_range; exact Hi). reflexivity.
Qed.

Lemma getitem2_wraps {A : Type} (g : list (list A)) (h w i j : Z) :
  grid_shape h w g -> - h <= i < h -> - w <= j < w ->
  getitem2 g i j = getitem2 g (i mod h) (j mod w).
Proof.
  intros Hg Hi Hj. pose proof Hg as [Hlen Hrows]. unfold getitem2.
  rewrite getitem_wraps by lia. rewrite Hlen.
  destruct (shape_row g h w (i mod h) Hg (mod_in_range i h Hi))
    as (r & Hr & Hrl).
  rewrite (getitem_inside g (i mod h) r) by (apply mod_in_range in Hi; lia || exact Hr).
  cbn [bind]. rewrite getitem_wraps by lia. rewrite Hrl. reflexivity.
Qed.

Lemma setitem2_wraps {A : Type} (g : list (list A)) (h w i j : Z) (v : A) :
  grid_shape h w g -> - h <= i < h -> - w <= j < w ->
  setitem2 g i j v = setitem2 g (i mod h) (j mod w) v.
Proof.
  intros Hg Hi Hj. pose proof Hg as [Hlen Hrows]. unfold setitem2.
  rewrite getitem_wraps by lia. rewrite Hlen.
  destruct (shape_row g h w (i mod h) Hg (mod_in_range i h Hi))
    as (r & Hr & Hrl).
  rewrite (getitem_inside g (i mod h) r) by (apply mod_in_range in Hi; lia || exact Hr).
  cbn [bind]. rewrite setitem_wraps by lia. rewrite Hrl.
  destruct (setitem r (j mod w) v); cbn [bind]; [|reflexivity].
  rewrite setitem_wraps by lia. rewrite Hlen. reflexivity.
Qed.

Lemma getitem2_beyond {A : Type} (g : list (list A)) (h w i j : Z) :
  grid_shape h w g -> i < - h \/ h <= i \/ j < - w \/ w <= j ->
  getitem2 g i j = Raise IndexError.
Proof.
  intros Hg Hout. pose proof Hg as [Hlen Hrows]. unfold getitem2.
  destruct (Z_lt_dec i (- h)) as [Hlo|Hlo];
    [unfold getitem; rewrite norm_index_beyond by lia; reflexivity|].
  destruct (Z_le_dec h i) as [Hhi|Hhi];
    [unfold getitem; rewrite norm_index_beyond by lia; reflexivity|].
  rewrite getitem_wraps by lia. rewrite Hlen.
  assert (Hi : - h <= i < h) by lia.
  destruct (shape_row g h w (i mod h) Hg (mod_in_range i h Hi))
    as (r & Hr & Hrl).
  rewrite (getitem_inside g (i mod h) r) by (apply mod_in_range in Hi; lia || exact Hr).
  cbn [bind]. unfold getitem. rewrite norm_index_beyond by lia. reflexivity.
Qed.

Lemma call_cell_wraps (gui : list (list (option Cell))) (h w i j : Z)
  (method : Cell -> Cell) :
  grid_shape h w gui -> - h <= i < h -> - w <= j < w ->
  call_cell gui i j method = call_cell gui (i mod h) (j mod w) method.
Proof.
  intros Hg Hi Hj. unfold call_cell.
  rewrite (getitem2_wraps gui h w i j Hg Hi Hj).
  destruct (getitem2 gui (i mod h) (j mod w)) as [[x|]|]; cbn [bind];
    try reflexivity.
  apply (setitem2_wraps gui h w); assumption.
Qed.

Lemma brush_at_update (c : Canvas) (b : Board) (r k i j : Z) (x : Cell) :
  grid_shape (height c) (width c) (gui_board c) ->
  0 <= r < height c -> 0 <= k < width c ->
  brush_at (mkCanvas (width c) (height c) b
              (grid_update (gui_board c) r k (Some x))) i j =
  if (i =? r) && (j =? k) then Some (brush x) else brush_at c i j.
Proof.
  intros Hg Hr Hk. unfold brush_at. cbn [gui_board].
  destruct (Z.eqb_spec i r) as [->|Hne];
    [destruct (Z.eqb_spec j k) as [->|Hne]|]; simpl.
  - rewrite (lookup2_update_eq _ _ _ r k _ Hg Hr Hk). reflexivity.
  - rewrite lookup2_update_ne by lia. reflexivity.
  - rewrite lookup2_update_ne by lia. reflexivity.
Qed.

Lemma mousePressEvent_buttons (c : Canvas) (button : MouseButton) (r k : Z) :
  button <> OtherButton ->
  mousePressEvent c button r k =
  match call_cell (gui_board c) r k (pressed_method button) with
  | Raise e => (c, Some e)
  | Ok gui =>
      match set_item (board c) r k (pressed_value button) with
      | Raise e => (mkCanvas (width c) (height c) (board c) gui, Some e)
      | Ok b => (mkCanvas (width c) (height c) b gui, None)
      end
  end.
Proof. destruct button; intros Hb; [reflexivity|reflexivity|congruence]. Qed.

Lemma pressed_method_brush (button : MouseButton) (x : Cell) :
  brush (pressed_method button x) = pressed_brush button.
Proof. destruct button; reflexivity. Qed.

(** X18. A press of the left or right button on a position of the grid.  On
    a canvas that agrees with its board on the dimensions, whose board's
    grid has that shape and whose visual grid holds a cell at every
    position, the handler ends without an exception; the board is the one
    [set_item] gives with 1 for the left button and 0 for the right one;
    the visual cell at the position takes the alive brush for the left
    button and the dead brush for the right one; every other brush is as it
    was; and if the visual grid showed the board before, it shows it
    after. *)
Theorem mousePressEvent_inside (c : Canvas) (button : MouseButton) (r k : Z) :
  Canvas_ok c -> in_grid (board c) r k -> button <> OtherButton ->
  exists c',
    mousePressEvent c button r k = (c', None) /\
    set_item (board c) r k (pressed_value button) = Ok (board c') /\
    Canvas_ok c' /\
    brush_at c' r k = Some (pressed_brush button) /\
    (forall i j, (i, j) <> (r, k) -> brush_at c' i j = brush_at c i j) /\
    (mirrors c -> mirrors c').
Proof.
  intros Hok Hin Hbutton. pose proof Hok as (Hw & Hh & Hb & Hgui & Hcells).
  assert (Hr : 0 <= r < height c) by (rewrite Hh; apply Hin).
  assert (Hk : 0 <= k < width c) by (rewrite Hw; apply Hin).
  destruct (Hcells r k Hr Hk) as [x Hx].
  rewrite (mousePressEvent_buttons c button r k Hbutton).
  rewrite (call_cell_inside _ _ _ r k _ x Hgui Hr Hk Hx).
  rewrite (set_item_inside (board c) r k _ Hb Hin).
  eexists. split; [reflexivity|]. cbn [board].
  split; [reflexivity|].
  assert (Hbrush : forall i j,
    brush_at (mkCanvas (width c) (height c)
                (with_state (board c)
                   (grid_update (_state (board c)) r k (pressed_value button)))
                (grid_update (gui_board c) r k
                   (Some (pressed_method button x)))) i j =
    if (i =? r) && (j =? k) then Some (pressed_brush button)
    else brush_at c i j).
  { intros i j. rewrite (brush_at_update c _ r k i j _ Hgui Hr Hk).
    rewrite pressed_method_brush. reflexivity. }
  split; [|split; [|split]].
  - unfold Canvas_ok. cbn [width height board gui_board _width _height with_state].
    split; [exact Hw|]. split; [exact Hh|].
    split; [apply with_state_update_shape; exact Hb|].
    split; [apply grid_update_shape; exact Hgui|].
    intros i j Hi Hj.
    destruct (Z.eq_dec i r) as [->|Hne]; [destruct (Z.eq_dec j k) as [->|Hne]|].
    + eexists. apply (lookup2_update_eq _ _ _ r k _ Hgui Hr Hk).
    + rewrite lookup2_update_ne by lia. apply Hcells; assumption.
    + rewrite lookup2_update_ne by lia. apply Hcells; assumption.
  - rewrite Hbrush, !Z.eqb_refl. reflexivity.
  - intros i j Hne. rewrite Hbrush.
    destruct (Z.eqb_spec i r) as [->|]; [destruct (Z.eqb_spec j k) as [->|]|];
      simpl; try reflexivity.
    exfalso. apply Hne. reflexivity.
  - intros Hmir i j Hij. cbn [board] in Hij |- *.
    assert (Hij0 : in_grid (board c) i j) by exact Hij.
    assert (Hb' : Board_shape (with_state (board c)
              (grid_update (_state (board c)) r k (pressed_value button))))
      by (apply with_state_update_shape; exact Hb).
    rewrite (get_item_cell _ i j Hb' Hij), Hbrush.
    rewrite (cell_after_update (board c) r k _ i j Hb Hin).
    eexists. split; [reflexivity|].
    destruct ((i =? r) && (j =? k)).
    + destruct button; [reflexivity|reflexivity|congruence].
    + destruct (Hmir i j Hij0) as (v & Hv & Hbr).
      rewrite (get_item_cell _ i j Hb Hij0) in Hv. injection Hv as ->.
      exact Hbr.
Qed.

Lemma canvas2x3_in_grid : in_grid (board canvas2x3) 2 1.
Proof. unfold in_grid. simpl. lia. Qed.

Lemma mousePressEvent_inside_witness :
  exists c',
    mousePressEvent canvas2x3 RightButton 2 1 = (c', None) /\
    set_item (board canvas2x3) 2 1 (pressed_value RightButton)
    = Ok (board c') /\
    Canvas_ok c' /\
    brush_at c' 2 1 = Some (pressed_brush RightButton) /\
    (forall i j, (i, j) <> (2, 1) -> brush_at c' i j = brush_at canvas2x3 i j) /\
    (mirrors canvas2x3 -> mirrors c').
Proof.
  apply (mousePressEvent_inside canvas2x3 RightButton 2 1).
  - exact canvas2x3_ok.
  - exact canvas2x3_in_grid.
  - discriminate.
Defined.

(** X19. A press of the left or right button whose row or column is
    negative, but not below minus the number of rows or columns.  On a
    canvas that agrees with its board on the dimensions, whose board's grid
    has that shape and whose visual grid holds a cell at every position, the
    index into the visual grid wraps around: the visual cell at the row and
    column taken modulo the dimensions is recoloured; then [set_item]
    refuses the negative index with [AssertionError], so the board is left
    as it was.  The handler ends with that exception and the recoloured
    cell stays. *)
Theorem mousePressEvent_wraps (c : Canvas) (button : MouseButton) (r k : Z) :
  Canvas_ok c ->
  - height c <= r < height c -> - width c <= k < width c ->
  r < 0 \/ k < 0 -> button <> OtherButton ->
  exists c',
    mousePressEvent c button r k = (c', Some AssertionError) /\
    board c' = board c /\
    brush_at c' (r mod height c) (k mod width c)
    = Some (pressed_brush button) /\
    forall i j, (i, j) <> (r mod height c, k mod width c) ->
      brush_at c' i j = brush_at c i j.
Proof.
  intros Hok Hr Hk Hneg Hbutton.
  pose proof Hok as (Hw & Hh & Hb & Hgui & Hcells).
  pose proof (mod_in_range r (height c) Hr) as Hr'.
  pose proof (mod_in_range k (width c) Hk) as Hk'.
  destruct (Hcells _ _ Hr' Hk') as [x Hx].
  rewrite (mousePressEvent_buttons c button r k Hbutton).
  rewrite (call_cell_wraps _ _ _ r k _ Hgui Hr Hk).
  rewrite (call_cell_inside _ _ _ _ _ _ x Hgui Hr' Hk' Hx).
  assert (Hset : set_item (board c) r k (pressed_value button)
                 = Raise AssertionError).
  { unfold set_item. destruct (index_assertion (board c) r k) eqn:Ha;
      [|reflexivity].
    apply index_assertion_spec in Ha. lia. }
  rewrite Hset. eexists. split; [reflexivity|].
  split; [reflexivity|].
  assert (Hbrush : forall i j,
    brush_at (mkCanvas (width c) (height c) (board c)
                (grid_update (gui_board c) (r mod height c) (k mod width c)
                   (Some (pressed_method button x)))) i j =
    if (i =? r mod height c) && (j =? k mod width c)
    then Some (pressed_brush button) else brush_at c i j).
  { intros i j. rewrite (brush_at_update c _ _ _ i j _ Hgui Hr' Hk').
    rewrite pressed_method_brush. reflexivity. }
  split.
  - rewrite Hbrush, !Z.eqb_refl. reflexivity.
  - intros i j Hne. rewrite Hbrush.
    destruct (Z.eqb_spec i (r mod height c)) as [->|];
      [destruct (Z.eqb_spec j (k mod width c)) as [->|]|];
      simpl; try reflexivity.
    exfalso. apply Hne. reflexivity.
Qed.

Lemma mousePressEvent_wraps_witness :
  exists c',
    mousePressEvent canvas2x3 RightButton (-1) 0 = (c', Some AssertionError) /\
    board c' = board canvas2x3 /\
    brush_at c' (-1 mod height canvas2x3) (0 mod width canvas2x3)
    = Some (pressed_brush RightButton) /\
    forall i j,
      (i, j) <> (-1 mod height canvas2x3, 0 mod width canvas2x3) ->
      brush_at c' i j = brush_at canvas2x3 i j.
Proof.
  apply (mousePressEvent_wraps canvas2x3 RightButton (-1) 0).
  - exact canvas2x3_ok.
  - simpl. lia.
  - simpl. lia.
  - left. lia.
  - discriminate.
Defined.

(** X20. A press of the left or right button whose row or column is at or
    past the number of rows or columns, or below minus that number.  On a
    canvas that agrees with its board on the dimensions, whose board's grid
    has that shape and whose visual grid holds a cell at every position, the
    handler ends with [IndexError] raised by the index into the visual
    grid, before anything is written: the canvas is left as it was. *)
Theorem mousePressEvent_beyond (c : Canvas) (button : MouseButton) (r k : Z) :
  Canvas_ok c ->
  r < - height c \/ height c <= r \/ k < - width c \/ width c <= k ->
  button <> OtherButton ->
  mousePressEvent c button r k = (c, Some IndexError).
Proof.
  intros (Hw & Hh & Hb & Hgui & Hcells) Hout Hbutton.
  rewrite (mousePressEvent_buttons c button r k Hbutton).
  unfold call_cell. rewrite (getitem2_beyond _ _ _ r k Hgui Hout).
  reflexivity.
Qed.

Lemma mousePressEvent_beyond_witness :
  mousePressEvent canvas2x3 LeftButton 3 0 = (canvas2x3, Some IndexError).
Proof.
  apply (mousePressEvent_beyond canvas2x3 LeftButton 3 0).
  - exact canvas2x3_ok.
  - right. left. simpl. lia.
  - discriminate.
Defined.

(** ** The pause button *)

(** X21. The text of the pause button and the flag [game_paused] stay in
    step.  The window is created paused with the text [Play], on a canvas
    of 110 columns and 133 rows that agrees with its board.  If the text
    and the flag agree, [pause_game_button] flips the flag, leaves the
    canvas alone and keeps them in agreement, and pressing it twice gives
    back the window.  [reset_game_button] and [randomize_game_button], on a
    window whose canvas agrees with its board, succeed and leave the game
    paused with the text [Play]. *)
Theorem pause_button_label (w : MainWindow) (g : Random) :
  (exists w0, MainWindow__init__ = Ok w0 /\ label_ok w0 /\
     game_paused (canvas w0) = true /\ Canvas_ok (scene (canvas w0)) /\
     width (scene (canvas w0)) = 110 /\ height (scene (canvas w0)) = 133) /\
  (label_ok w ->
     label_ok (pause_game_button w) /\
     game_paused (canvas (pause_game_button w))
     = negb (game_paused (canvas w)) /\
     scene (canvas (pause_game_button w)) = scene (canvas w) /\
     pause_game_button (pause_game_button w) = w) /\
  (Canvas_ok (scene (canvas w)) ->
     (exists w', reset_game_button w = Ok w' /\ label_ok w' /\
        game_paused (canvas w') = true /\
        reset_game (scene (canvas w)) = Ok (scene (canvas w'))) /\
     (exists w' g', randomize_game_button w g = Ok (w', g') /\ label_ok w' /\
        game_paused (canvas w') = true /\
        randomize_game (scene (canvas w)) g = Ok (scene (canvas w'), g'))).
Proof.
  split; [|split].
  - unfold MainWindow__init__, Game__init__.
    destruct (Canvas_init_ok CANVAS_HEIGHT CANVAS_WIDTH)
      as (c & Hc & Hok & Hw & Hh); [unfold CANVAS_HEIGHT; lia
                                   |unfold CANVAS_WIDTH; lia|].
    rewrite Hc. cbn [bind]. eexists. split; [reflexivity|].
    cbn [canvas scene game_paused pause_play_text].
    split; [left; split; reflexivity|]. split; [reflexivity|].
    split; [exact Hok|]. split; [rewrite Hw|rewrite Hh]; reflexivity.
  - intros [[Hp Ht] | [Hp Ht]]; destruct w as [[sc p] t];
      cbn [canvas scene game_paused pause_play_text] in *; subst p t;
      unfold pause_game_button, toggle_pause, label_ok;
      cbn [canvas scene game_paused pause_play_text negb];
      (split; [|split; [reflexivity|split; reflexivity]]).
    + right. split; reflexivity.
    + left. split; reflexivity.
  - intros Hok. split.
    + destruct (reset_game_cells _ Hok) as (c' & Hreset & _).
      unfold reset_game_button. rewrite Hreset. cbn [bind].
      eexists. split; [reflexivity|].
      cbn [canvas scene game_paused pause_play_text force_pause].
      split; [left; split; reflexivity|]. split; reflexivity.
    + pose proof Hok as (_ & _ & Hb & _).
      destruct (randomize_board_shape (board (scene (canvas w))) g Hb)
        as (b' & g' & Hrand & Hdims & Hb').
      destruct (gui_sync (mkCanvas (width (scene (canvas w)))
                            (height (scene (canvas w))) b'
                            (gui_board (scene (canvas w)))))
        as (c' & Hsync & _).
      { apply Canvas_ok_new_board; assumption. }
      assert (Hgame : randomize_game (scene (canvas w)) g = Ok (c', g')).
      { unfold randomize_game. rewrite Hrand. cbn [bind fst snd].
        cbn [width height board gui_board] in Hsync. rewrite Hsync.
        reflexivity. }
      unfold randomize_game_button. rewrite Hgame. cbn [bind fst snd].
      eexists. eexists. split; [reflexivity|].
      cbn [canvas scene game_paused pause_play_text force_pause].
      split; [left; split; reflexivity|]. split; reflexivity.
Qed.

Lemma pause_button_label_witness :
  (label_ok (pause_game_button (mkMainWindow (mkGame canvas2x3 true) Play)) /\
   game_paused (canvas (pause_game_button
                          (mkMainWindow (mkGame canvas2x3 true) Play)))
   = negb true /\
   scene (canvas (pause_game_button
                    (mkMainWindow (mkGame canvas2x3 true) Play)))
   = canvas2x3 /\
   pause_game_button
     (pause_game_button (mkMainWindow (mkGame canvas2x3 true) Play))
   = mkMainWindow (mkGame canvas2x3 true) Play) /\
  (exists w', reset_game_button (mkMainWindow (mkGame canvas2x3 false) Pause)
              = Ok w' /\ label_ok w' /\
     game_paused (canvas w') = true /\
     reset_game canvas2x3 = Ok (scene (canvas w'))).
Proof.
  destruct (pause_button_label (mkMainWindow (mkGame canvas2x3 true) Play)
              (mkRandom (fun k => k) 0)) as (_ & Hpause & _).
  destruct (pause_button_label (mkMainWindow (mkGame canvas2x3 false) Pause)
              (mkRandom (fun k => k) 0)) as (_ & _ & Hbuttons).
  split.
  - apply Hpause. left. split; reflexivity.
  - apply Hbuttons. exact canvas2x3_ok.
Defined.

(** ** Integer contents and symmetry *)

(** X22. [next_state] brings any integer contents back to the two states:
    on a board whose grid has [_height] rows of [_width] cells holding any
    integers, it succeeds and every cell of the result is Dead or Alive; a
    cell that held a value other than 0 and 1 is Dead afterwards, whatever
    its neighbors. *)
Theorem next_state_normalises (b : Board) :
  Board_shape b ->
  exists b',
    next_state b = Ok b' /\ same_dims b b' /\ Board_inv b' /\
    forall i j v, get_item b i j = Ok v -> v <> 0 -> v <> 1 ->
      get_item b' i j = Ok Dead.
Proof.
  intros Hb.
  destruct (next_state_cells b Hb) as (b' & Hn & Hw & Hh & Hb' & Hcells).
  exists b'. split; [exact Hn|]. split; [split; assumption|]. split.
  - split; [exact Hb'|]. apply binary_of_cells. intros i j v Hv.
    destruct (lookup2_Some_inside _ _ _ _ _ _ Hb' Hv) as [Hi Hj].
    rewrite Hcells in Hv by (split; lia). injection Hv as <-.
    destruct (rule_binary (cell b i j) (neighbor_sum b i j)) as [-> | ->];
      [right|left]; reflexivity.
  - intros i j v Hget H0 H1.
    assert (Hin : in_grid b i j).
    { destruct (in_gridb b i j) eqn:E; [apply in_gridb_spec; exact E|].
      destruct (get_item_outside b i j Hb) as [e He].
      - intros Hin. apply in_gridb_spec in Hin. congruence.
      - congruence. }
    rewrite (get_item_cell b i j Hb Hin) in Hget. injection Hget as Hv.
    assert (Hin' : in_grid b' i j)
      by (unfold in_grid in *; rewrite Hw, Hh; exact Hin).
    rewrite (get_item_cell b' i j Hb' Hin'). unfold cell at 1.
    rewrite (Hcells i j Hin), Hv. unfold rule.
    destruct (Z.eqb_spec v 1); [contradiction|].
    destruct (Z.eqb_spec v 0); [contradiction|]. reflexivity.
Qed.

Lemma next_state_normalises_witness :
  exists b',
    next_state (mkBoard 2 2 [[7; 1]; [1; 1]]) = Ok b' /\
    same_dims (mkBoard 2 2 [[7; 1]; [1; 1]]) b' /\ Board_inv b' /\
    forall i j v, get_item (mkBoard 2 2 [[7; 1]; [1; 1]]) i j = Ok v ->
      v <> 0 -> v <> 1 -> get_item b' i j = Ok Dead.
Proof.
  apply (next_state_normalises (mkBoard 2 2 [[7; 1]; [1; 1]])).
  split; [reflexivity|repeat constructor].
Defined.

Lemma flip_columns_shape (b : Board) :
  Board_shape b -> Board_shape (flip_columns b).
Proof.
  intros [Hlen Hrows]. split; cbn [_state _width _height flip_columns with_state].
  - rewrite length_map. exact Hlen.
  - apply Forall_forall. intros r Hr. apply in_map_iff in Hr.
    destruct Hr as (r0 & <- & Hr0). rewrite length_reverse.
    rewrite Forall_forall in Hrows. apply Hrows. exact Hr0.
Qed.

Lemma flip_rows_shape (b : Board) :
  Board_shape b -> Board_shape (flip_rows b).
Proof.
  intros [Hlen Hrows]. split; cbn [_state _width _height flip_rows with_state].
  - rewrite length_reverse. exact Hlen.
  - apply Forall_forall. intros r Hr.
    rewrite Forall_forall in Hrows. apply Hrows.
    apply list_elem_of_In. apply list_elem_of_In in Hr.
    apply elem_of_reverse in Hr. rewrite reverse_involutive in Hr. exact Hr.
Qed.

Lemma cell_flip_columns (b : Board) (i j : Z) :
  Board_shape b ->
  cell (flip_columns b) i j = cell b i (_width b - 1 - j).
Proof.
  intros Hb. pose proof (flip_columns_shape b Hb) as Hf.
  destruct (in_gridb b i j) eqn:E.
  - apply in_gridb_spec in E. destruct E as [Hi Hj].
    destruct (shape_row _ _ _ i Hb Hi) as (r & Hr & Hlen).
    unfold cell, lookup2. cbn [_state flip_columns with_state].
    destruct (Z.leb_spec 0 i); [|lia]. destruct (Z.leb_spec 0 j); [|lia].
    destruct (Z.leb_spec 0 (_width b - 1 - j)); [|lia]. simpl.
    change (map reverse (_state b)) with (reverse <$> _state b).
    rewrite list_lookup_fmap, Hr. simpl.
    rewrite reverse_lookup by lia. do 2 f_equal. lia.
  - assert (Hout : ~ in_grid b i j)
      by (intros Hin; apply in_gridb_spec in Hin; congruence).
    unfold cell.
    rewrite (lookup2_outside _ _ _ _ _ Hf) by exact Hout.
    rewrite (lookup2_outside _ _ _ _ _ Hb); [reflexivity|].
    unfold in_grid in *. lia.
Qed.

Lemma cell_flip_rows (b : Board) (i j : Z) :
  Board_shape b ->
  cell (flip_rows b) i j = cell b (_height b - 1 - i) j.
Proof.
  intros Hb. pose proof (flip_rows_shape b Hb) as Hf.
  destruct (in_gridb b i j) eqn:E.
  - apply in_gridb_spec in E. destruct E as [Hi Hj].
    unfold cell, lookup2. cbn [_state flip_rows with_state].
    destruct (Z.leb_spec 0 i); [|lia]. destruct (Z.leb_spec 0 j); [|lia].
    destruct (Z.leb_spec 0 (_height b - 1 - i)); [|lia]. simpl.
    destruct Hb as [Hlen _].
    rewrite reverse_lookup by lia.
    replace (length (_state b) - S (Z.to_nat i))%nat
      with (Z.to_nat (_height b - 1 - i)) by lia.
    reflexivity.
  - assert (Hout : ~ in_grid b i j)
      by (intros Hin; apply in_gridb_spec in Hin; congruence).
    unfold cell.
    rewrite (lookup2_outside _ _ _ _ _ Hf) by exact Hout.
    rewrite (lookup2_outside _ _ _ _ _ Hb); [reflexivity|].
    unfold in_grid in *. lia.
Qed.

Lemma neighbor_sum_flip_columns (b : Board) (i j : Z) :
  Board_shape b ->
  neighbor_sum (flip_columns b) i j = neighbor_sum b i (_width b - 1 - j).
Proof.
  intros Hb. unfold neighbor_sum. rewrite !(cell_flip_columns b _ _ Hb).
  replace (_width b - 1 - (j + -1)) with (_width b - 1 - j + 1) by lia.
  replace (_width b - 1 - (j + 1)) with (_width b - 1 - j + -1) by lia.
  replace (_width b - 1 - (j + 0)) with (_width b - 1 - j + 0) by lia.
  lia.
Qed.

Lemma neighbor_sum_flip_rows (b : Board) (i j : Z) :
  Board_shape b ->
  neighbor_sum (flip_rows b) i j = neighbor_sum b (_height b - 1 - i) j.
Proof.
  intros Hb. unfold neighbor_sum. rewrite !(cell_flip_rows b _ _ Hb).
  replace (_height b - 1 - (i + -1)) with (_height b - 1 - i + 1) by lia.
  replace (_height b - 1 - (i + 1)) with (_height b - 1 - i + -1) by lia.
  replace (_height b - 1 - (i + 0)) with (_height b - 1 - i + 0) by lia.
  lia.
Qed.

(** X23. [next_state] commutes with the two mirror images of the board: on
    a board whose grid has [_height] rows of [_width] cells, stepping the
    board with every row reversed gives the stepped board with every row
    reversed, and stepping the board with its rows in reverse order gives
    the stepped board with its rows in reverse order. *)
Theorem next_state_commutes_with_flips (b : Board) :
  Board_shape b ->
  exists b',
    next_state b = Ok b' /\
    next_state (flip_columns b) = Ok (flip_columns b') /\
    next_state (flip_rows b) = Ok (flip_rows b').
Proof.
  intros Hb.
  destruct (next_state_cells b Hb) as (b' & Hn & Hw & Hh & Hb' & Hcells).
  exists b'. split; [exact Hn|]. split.
  - destruct (next_state_cells (flip_columns b) (flip_columns_shape b Hb))
      as (c' & Hc & Hcw & Hch & Hcs & Hcc).
    rewrite Hc. f_equal. apply board_ext.
    + apply flip_columns_shape; exact Hb'.
    + exact Hcs.
    + split; [rewrite Hcw|rewrite Hch]; cbn [_width _height flip_columns with_state];
        congruence.
    + intros i j Hin.
      assert (Hinb : in_grid b i j)
        by (unfold in_grid in *; cbn [_width _height flip_columns with_state] in Hin;
            rewrite <- Hw, <- Hh; exact Hin).
      rewrite (Hcc i j Hinb).
      rewrite (lookup2_cell _ i j (flip_columns_shape b' Hb') Hin).
      rewrite (cell_flip_columns b' i j Hb'), (cell_flip_columns b i j Hb).
      rewrite (neighbor_sum_flip_columns b i j Hb). f_equal.
      assert (Hin2 : in_grid b i (_width b - 1 - j))
        by (unfold in_grid in *; lia).
      pose proof (Hcells _ _ Hin2) as E.
      assert (Ecell : cell b' i (_width b - 1 - j)
                      = rule (cell b i (_width b - 1 - j))
                          (neighbor_sum b i (_width b - 1 - j))).
      { unfold cell at 1. rewrite E. reflexivity. }
      rewrite Hw, Ecell. reflexivity.
  - destruct (next_state_cells (flip_rows b) (flip_rows_shape b Hb))
      as (c' & Hc & Hcw & Hch & Hcs & Hcc).
    rewrite Hc. f_equal. apply board_ext.
    + apply flip_rows_shape; exact Hb'.
    + exact Hcs.
    + split; [rewrite Hcw|rewrite Hch]; cbn [_width _height flip_rows with_state];
        congruence.
    + intros i j Hin.
      assert (Hinb : in_grid b i j)
        by (unfold in_grid in *; cbn [_width _height flip_rows with_state] in Hin;
            rewrite <- Hw, <- Hh; exact Hin).
      rewrite (Hcc i j Hinb).
      rewrite (lookup2_cell _ i j (flip_rows_shape b' Hb') Hin).
      rewrite (cell_flip_rows b' i j Hb'), (cell_flip_rows b i j Hb).
      rewrite (neighbor_sum_flip_rows b i j Hb). f_equal.
      assert (Hin2 : in_grid b (_height b - 1 - i) j)
        by (unfold in_grid in *; lia).
      pose proof (Hcells _ _ Hin2) as E.
      assert (Ecell : cell b' (_height b - 1 - i) j
                      = rule (cell b (_height b - 1 - i) j)
                          (neighbor_sum b (_height b - 1 - i) j)).
      { unfold cell at 1. rewrite E. reflexivity. }
      rewrite Hh, Ecell. reflexivity.
Qed.

Lemma next_state_commutes_with_flips_witness :
  exists b',
    next_state (mkBoard 3 2 [[1; 1; 0]; [1; 0; 0]]) = Ok b' /\
    next_state (flip_columns (mkBoard 3 2 [[1; 1; 0]; [1; 0; 0]]))
    = Ok (flip_columns b') /\
    next_state (flip_rows (mkBoard 3 2 [[1; 1; 0]; [1; 0; 0]]))
    = Ok (flip_rows b').
Proof.
  apply (next_state_commutes_with_flips (mkBoard 3 2 [[1; 1; 0]; [1; 0; 0]])).
  split; [reflexivity|repeat constructor].
Defined.
